(** * appointment-scheduling-bot: configuration resolver and calendar adapter

    A shallow embedding of
      - internal/shared/config/config.go   (Load, getEnv, GetGoogleCreds)
      - internal/calendar/types.go         (TimeBlock, Appointment)
      - internal/calendar/google/client.go (ListBusy, CreateEvent,
                                            UpdateEvent, DeleteEvent)
    together with the properties the specification states about them.

    Conventions.
      - A Go [string] is a [string] (a sequence of 8-bit characters), a
        [[]byte] is a [list byte]; a nil slice and an empty slice are both
        [[]].
      - A Go function returning [(T, error)] returns a pair
        [T * option error]; [None] is the nil error.  Both components are
        kept, because [Load] returns a populated value next to an error.
      - The operating system (files, environment variables) and the remote
        calendar service are explicit: the first as a state that is passed
        around, the second as the calls a program issues, answered by an
        arbitrary handler. *)

From Stdlib Require Import ZArith NArith.
From Stdlib.Strings Require Import Ascii String Byte.
From stdpp Require Import base option gmap strings pretty list fin_maps.

Local Open Scope string_scope.

(* ===================================================================== *)
(** ** Errors *)
(* ===================================================================== *)

(** The error values that reach the code: [fmt.Errorf] with and without
    [%w], [*fs.PathError] from package os, [base64.CorruptInputError], and
    whatever the calendar service or the dotenv parser reports. *)
Inductive error : Type :=
| ErrNew (msg : string)
| ErrWrap (msg : string) (cause : error)
| ErrPath (op path reason : string)
| ErrCorruptInput (offset : nat)
| ErrRemote (code : Z) (msg : string)
| ErrParse (msg : string).

(** The value a library call yields: a result or an error. *)
Inductive Result (A : Type) : Type :=
| Ok (a : A)
| Err (e : error).
Arguments Ok {A} a.
Arguments Err {A} e.

(* ===================================================================== *)
(** ** encoding/base64: StdEncoding.DecodeString *)
(* ===================================================================== *)

Module base64.

(** The standard alphabet: A-Z, a-z, 0-9, '+', '/'. *)
Definition decodeMap (c : ascii) : option N :=
  let n := N_of_ascii c in
  if ((65 <=? n) && (n <=? 90))%N then Some (n - 65)%N
  else if ((97 <=? n) && (n <=? 122))%N then Some (n - 97 + 26)%N
  else if ((48 <=? n) && (n <=? 57))%N then Some (n - 48 + 52)%N
  else if (n =? 43)%N then Some 62%N
  else if (n =? 47)%N then Some 63%N
  else None.

Definition padChar : ascii := "="%char.

Definition isNewline (c : ascii) : bool :=
  (N_of_ascii c =? 10)%N || (N_of_ascii c =? 13)%N.

(** The decoder skips carriage returns and line feeds wherever they
    stand. *)
Fixpoint stripNewlines (s : string) : list ascii :=
  match s with
  | EmptyString => []
  | String c r => if isNewline c then stripNewlines r else c :: stripNewlines r
  end.

Definition byteOf (n : N) : byte := byte_of_ascii (ascii_of_N (N.land n 255)).

(** Four 6-bit values make three bytes. *)
Definition assemble (a b c d : N) : N :=
  N.lor (N.lor (N.lor (N.shiftl a 18) (N.shiftl b 12)) (N.shiftl c 6)) d.

(** One quantum at a time.  A full quantum gives three bytes; a quantum
    closed by "==" gives one and one closed by "=" gives two, and both
    must end the input; anything else is corrupt.  The encoding is not
    strict: the unused low bits of a padded quantum are not checked. *)
Fixpoint decodeQuanta (src : list ascii) : option (list byte) :=
  match src with
  | [] => Some []
  | [a; b; p; q] =>
      match decodeMap a, decodeMap b, decodeMap p, decodeMap q with
      | Some x, Some y, Some z, Some w =>
          let v := assemble x y z w in
          Some [byteOf (N.shiftr v 16); byteOf (N.shiftr v 8); byteOf v]
      | Some x, Some y, Some z, None =>
          if Ascii.eqb q padChar then
            let v := assemble x y z 0 in
            Some [byteOf (N.shiftr v 16); byteOf (N.shiftr v 8)]
          else None
      | Some x, Some y, None, _ =>
          if Ascii.eqb p padChar && Ascii.eqb q padChar then
            let v := assemble x y 0 0 in
            Some [byteOf (N.shiftr v 16)]
          else None
      | _, _, _, _ => None
      end
  | a :: b :: c :: d :: rest =>
      match decodeMap a, decodeMap b, decodeMap c, decodeMap d with
      | Some x, Some y, Some z, Some w =>
          let v := assemble x y z w in
          match decodeQuanta rest with
          | Some out =>
              Some (byteOf (N.shiftr v 16) :: byteOf (N.shiftr v 8) :: byteOf v :: out)
          | None => None
          end
      | _, _, _, _ => None
      end
  | _ => None
  end.

(** On corrupt input Go also hands back the bytes decoded so far; no
    caller here looks at them, and the model returns none. *)
Definition DecodeString (s : string) : list byte * option error :=
  match decodeQuanta (stripNewlines s) with
  | Some out => (out, None)
  | None => ([], Some (ErrCorruptInput 0))
  end.

End base64.

(* ===================================================================== *)
(** ** Package os: files and environment variables *)
(* ===================================================================== *)

(** What a path names: a regular file that reads to its content, a
    directory, or a regular file whose read fails (permission denied, an
    input/output error) with the bytes read before the failure, the failing
    operation and the reason.  [os.Stat] succeeds on all three;
    [os.ReadFile] succeeds on the first only. *)
Inductive Node : Type :=
| File (content : list byte)
| Dir
| Unreadable (partial : list byte) (op reason : string).

Record OS : Type := mkOS {
  fs : gmap string Node;
  environ : gmap string string
}.

Module os.

Definition Stat (w : OS) (name : string) : option error :=
  match fs w !! name with
  | Some _ => None
  | None => Some (ErrPath "stat" name "no such file or directory")
  end.

Definition IsNotExist (err : option error) : bool :=
  match err with
  | Some (ErrPath _ _ "no such file or directory") => true
  | _ => false
  end.

Definition ReadFile (w : OS) (name : string) : list byte * option error :=
  match fs w !! name with
  | Some (File content) => (content, None)
  | Some Dir => ([], Some (ErrPath "read" name "is a directory"))
  | Some (Unreadable partial op reason) => (partial, Some (ErrPath op name reason))
  | None => ([], Some (ErrPath "open" name "no such file or directory"))
  end.

(** An unset variable reads as the empty string. *)
Definition Getenv (w : OS) (key : string) : string :=
  default "" (environ w !! key).

Fixpoint hasChar (c : ascii) (s : string) : bool :=
  match s with
  | EmptyString => false
  | String d r => Ascii.eqb c d || hasChar c r
  end.

(** [Setenv] refuses an empty key, a key with '=' or NUL, and a value
    with NUL. *)
Definition Setenv (key value : string) (w : OS) : option error * OS :=
  if String.eqb key "" || hasChar "="%char key || hasChar zero key
     || hasChar zero value
  then (Some (ErrPath "setenv" key "invalid argument"), w)
  else (None, mkOS (fs w) (<[key := value]> (environ w))).

End os.


(* ===================================================================== *)
(** ** github.com/joho/godotenv *)
(* ===================================================================== *)

(** The syntax of an environment file belongs to the library; the code
    only relies on [Parse] giving the file's key/value pairs or an
    error. *)
Class DotenvSyntax : Type := {
  dotenv_Parse : list byte -> Result (gmap string string)
}.

Module godotenv.
Section godotenv.
Context `{DotenvSyntax}.

Definition filenamesOrDefault (filenames : list string) : list string :=
  match filenames with
  | [] => [".env"]
  | _ => filenames
  end.

Definition readFile (filename : string) (w : OS) : Result (gmap string string) :=
  match os.ReadFile w filename with
  | (content, None) => dotenv_Parse content
  | (_, Some e) => Err e
  end.

(** Variables already in the environment are left alone (no overload);
    a failure of [Setenv] is dropped. *)
Definition loadFile (filename : string) (w : OS) : option error * OS :=
  match readFile filename w with
  | Err e => (Some e, w)
  | Ok envMap =>
      let currentEnv := environ w in
      (None,
       map_fold (fun key value w' =>
                   match currentEnv !! key with
                   | Some _ => w'
                   | None => snd (os.Setenv key value w')
                   end) w envMap)
  end.

Fixpoint loadFiles (filenames : list string) (w : OS) : option error * OS :=
  match filenames with
  | [] => (None, w)
  | filename :: rest =>
      match loadFile filename w with
      | (Some e, w') => (Some e, w')
      | (None, w') => loadFiles rest w'
      end
  end.

Definition Load (filenames : list string) (w : OS) : option error * OS :=
  loadFiles (filenamesOrDefault filenames) w.

End godotenv.
End godotenv.

(* ===================================================================== *)
(** ** internal/shared/config/config.go *)
(* ===================================================================== *)

Module config.

(** Config holds all application configuration. *)
Record Config : Type := mkConfig {
  Env : string;
  HttpPort : string;
  Timezone : string;
  GCalCalendarID : string;
  GoogleCredsJSON : string;
  SupabaseURL : string;
  SupabaseKey : string;
  RedisURL : string
}.

(** getEnv retrieves an environment variable with a default value. *)
Definition getEnv (w : OS) (key defaultValue : string) : string :=
  let value := os.Getenv w key in
  if decide (value ≠ "") then value else defaultValue.

Section Load.
Context `{DotenvSyntax}.

(** Load reads configuration from environment variables.  The two
    [godotenv.Load] calls may extend the environment, so the state of
    the operating system is returned next to Go's two results. *)
Definition Load (w : OS) : (Config * option error) * OS :=
  let w1 := snd (godotenv.Load [] w) in
  let w2 :=
    if os.IsNotExist (os.Stat w1 ".env")
    then snd (godotenv.Load ["config.env"] w1)
    else w1 in
  let config := {|
    Env := getEnv w2 "APP_ENV" "development";
    HttpPort := getEnv w2 "HTTP_PORT" "8080";
    Timezone := getEnv w2 "TZ" "UTC";
    GCalCalendarID := getEnv w2 "GCAL_CALENDAR_ID" "";
    GoogleCredsJSON := getEnv w2 "GOOGLE_CREDS_JSON" "";
    SupabaseURL := getEnv w2 "SUPABASE_URL" "";
    SupabaseKey := getEnv w2 "SUPABASE_KEY" "";
    RedisURL := getEnv w2 "REDIS_URL" "redis://localhost:6379"
  |} in
  if decide (Env config = "production") then
    if decide (GCalCalendarID config = "") then
      ((config, Some (ErrNew "GCAL_CALENDAR_ID is required in production")), w2)
    else if decide (GoogleCredsJSON config = "") then
      ((config, Some (ErrNew "GOOGLE_CREDS_JSON is required in production")), w2)
    else ((config, None), w2)
  else ((config, None), w2).
End Load.

(** GetGoogleCreds returns the Google credentials as bytes. *)
Definition GetGoogleCreds (c : Config) (w : OS) : list byte * option error :=
  if Nat.ltb 0 (String.length (GoogleCredsJSON c)) then
    match base64.DecodeString (GoogleCredsJSON c) with
    | (decoded, None) => (decoded, None)
    | (_, Some _) =>
        match os.Stat w (GoogleCredsJSON c) with
        | None => os.ReadFile w (GoogleCredsJSON c)
        | Some _ => (list_byte_of_string (GoogleCredsJSON c), None)
        end
    end
  else ([], Some (ErrNew "no Google credentials provided")).

End config.


(* ===================================================================== *)
(** ** Package time *)
(* ===================================================================== *)

(** The code formats and parses instants with the layout [time.RFC3339]
    and does nothing else with them.  The instants and the two functions
    are those of Go's library, taken here as an interface. *)
Module time.

Definition RFC3339 : string := "2006-01-02T15:04:05Z07:00".

Class API : Type := {
  Time : Type;
  Format : Time -> string -> string;
  Parse : string -> string -> Result Time
}.

End time.

(* ===================================================================== *)
(** ** internal/calendar/types.go *)
(* ===================================================================== *)

Module calendar.
Section calendar.
Context `{time.API}.

(** TimeBlock represents a busy time block from Google Calendar. *)
Record TimeBlock : Type := mkTimeBlock {
  TimeBlock_Start : time.Time;
  TimeBlock_End : time.Time;
  TimeBlock_Source : string
}.

(** Appointment represents a calendar appointment/event. *)
Record Appointment : Type := mkAppointment {
  Appointment_Summary : string;
  Appointment_Description : string;
  Appointment_Start : time.Time;
  Appointment_End : time.Time;
  Appointment_AttendeeName : string;
  Appointment_AttendeeEmail : string;
  Appointment_Location : string;
  Appointment_Timezone : string
}.

End calendar.
End calendar.

(* ===================================================================== *)
(** ** google.golang.org/api/calendar/v3: the wire types *)
(* ===================================================================== *)

Module gcal.

Record FreeBusyRequestItem : Type := mkFreeBusyRequestItem {
  FreeBusyRequestItem_Id : string
}.

Record FreeBusyRequest : Type := mkFreeBusyRequest {
  FreeBusyRequest_TimeMin : string;
  FreeBusyRequest_TimeMax : string;
  FreeBusyRequest_Items : list FreeBusyRequestItem
}.

Record TimePeriod : Type := mkTimePeriod {
  TimePeriod_Start : string;
  TimePeriod_End : string
}.

Record FreeBusyCalendar : Type := mkFreeBusyCalendar {
  FreeBusyCalendar_Busy : list TimePeriod
}.

Record FreeBusyResponse : Type := mkFreeBusyResponse {
  FreeBusyResponse_Calendars : gmap string FreeBusyCalendar
}.

Record EventDateTime : Type := mkEventDateTime {
  EventDateTime_Date : string;
  EventDateTime_DateTime : string;
  EventDateTime_TimeZone : string
}.

Record EventAttendee : Type := mkEventAttendee {
  EventAttendee_Email : string;
  EventAttendee_DisplayName : string;
  EventAttendee_Comment : string;
  EventAttendee_ResponseStatus : string;
  EventAttendee_Optional : bool;
  EventAttendee_Organizer : bool
}.

(** The seven fields the adapter names, and a sample of those it never
    names: the library's struct has more of the second kind, all treated
    by the code as these are. *)
Record Event : Type := mkEvent {
  Event_Id : string;
  Event_Summary : string;
  Event_Description : string;
  Event_Start : option EventDateTime;
  Event_End : option EventDateTime;
  Event_Location : string;
  Event_Attendees : list EventAttendee;
  Event_Status : string;
  Event_Etag : string;
  Event_HtmlLink : string;
  Event_ColorId : string;
  Event_Visibility : string;
  Event_Recurrence : list string;
  Event_Sequence : Z;
  Event_ExtendedProperties : gmap string string
}.

(** Assignments to a field of an event held by pointer. *)
Definition Event_setSummary (v : string) (e : Event) : Event :=
  mkEvent (Event_Id e) v (Event_Description e) (Event_Start e) (Event_End e)
    (Event_Location e) (Event_Attendees e) (Event_Status e) (Event_Etag e)
    (Event_HtmlLink e) (Event_ColorId e) (Event_Visibility e)
    (Event_Recurrence e) (Event_Sequence e) (Event_ExtendedProperties e).

Definition Event_setDescription (v : string) (e : Event) : Event :=
  mkEvent (Event_Id e) (Event_Summary e) v (Event_Start e) (Event_End e)
    (Event_Location e) (Event_Attendees e) (Event_Status e) (Event_Etag e)
    (Event_HtmlLink e) (Event_ColorId e) (Event_Visibility e)
    (Event_Recurrence e) (Event_Sequence e) (Event_ExtendedProperties e).

Definition Event_setStart (v : option EventDateTime) (e : Event) : Event :=
  mkEvent (Event_Id e) (Event_Summary e) (Event_Description e) v (Event_End e)
    (Event_Location e) (Event_Attendees e) (Event_Status e) (Event_Etag e)
    (Event_HtmlLink e) (Event_ColorId e) (Event_Visibility e)
    (Event_Recurrence e) (Event_Sequence e) (Event_ExtendedProperties e).

Definition Event_setEnd (v : option EventDateTime) (e : Event) : Event :=
  mkEvent (Event_Id e) (Event_Summary e) (Event_Description e) (Event_Start e) v
    (Event_Location e) (Event_Attendees e) (Event_Status e) (Event_Etag e)
    (Event_HtmlLink e) (Event_ColorId e) (Event_Visibility e)
    (Event_Recurrence e) (Event_Sequence e) (Event_ExtendedProperties e).

Definition Event_setLocation (v : string) (e : Event) : Event :=
  mkEvent (Event_Id e) (Event_Summary e) (Event_Description e) (Event_Start e)
    (Event_End e) v (Event_Attendees e) (Event_Status e) (Event_Etag e)
    (Event_HtmlLink e) (Event_ColorId e) (Event_Visibility e)
    (Event_Recurrence e) (Event_Sequence e) (Event_ExtendedProperties e).

Definition Event_setAttendees (v : list EventAttendee) (e : Event) : Event :=
  mkEvent (Event_Id e) (Event_Summary e) (Event_Description e) (Event_Start e)
    (Event_End e) (Event_Location e) v (Event_Status e) (Event_Etag e)
    (Event_HtmlLink e) (Event_ColorId e) (Event_Visibility e)
    (Event_Recurrence e) (Event_Sequence e) (Event_ExtendedProperties e).

Definition Event_setId (v : string) (e : Event) : Event :=
  mkEvent v (Event_Summary e) (Event_Description e) (Event_Start e)
    (Event_End e) (Event_Location e) (Event_Attendees e) (Event_Status e)
    (Event_Etag e) (Event_HtmlLink e) (Event_ColorId e) (Event_Visibility e)
    (Event_Recurrence e) (Event_Sequence e) (Event_ExtendedProperties e).

(** The session a service value stands for, by the credential document
    it was opened with. *)
Record Service : Type := mkService {
  Service_credentials : list byte
}.

(** The remote calls of the adapter, each with the type of what its
    [Do] gives back. *)
Inductive Call : Type -> Type :=
| FreebusyQuery (svc : Service) (query : FreeBusyRequest)
    : Call (Result FreeBusyResponse)
| EventsInsert (svc : Service) (calendarId : string) (event : Event)
    : Call (Result Event)
| EventsGet (svc : Service) (calendarId eventId : string)
    : Call (Result Event)
| EventsUpdate (svc : Service) (calendarId eventId : string) (event : Event)
    : Call (Result Event)
| EventsDelete (svc : Service) (calendarId eventId : string)
    : Call (option error).

End gcal.

(* ===================================================================== *)
(** ** Programs that talk to the calendar service *)
(* ===================================================================== *)

(** A program either is done or issues one call and goes on with the
    answer. *)
Inductive Prog (A : Type) : Type :=
| Ret (a : A)
| Vis {R : Type} (e : gcal.Call R) (k : R -> Prog A).
Arguments Ret {A} a.
Arguments Vis {A R} e k.

Fixpoint Prog_bind {A B : Type} (p : Prog A) (f : A -> Prog B) : Prog B :=
  match p with
  | Ret a => f a
  | Vis e k => Vis e (fun r => Prog_bind (k r) f)
  end.

(** A call with its answer type, as it shows in a trace. *)
Definition AnyCall : Type := { R : Type & gcal.Call R }.
Definition anyCall {R : Type} (e : gcal.Call R) : AnyCall := existT R e.

(** The remote side: some state, and an answer to every call. *)
Record Remote : Type := mkRemote {
  RemoteState : Type;
  answer : forall R : Type, gcal.Call R -> RemoteState -> R * RemoteState
}.

(** Running a program against a remote side gives its result, the state
    the remote side is left in, and the calls issued in order. *)
Fixpoint run {A : Type} (srv : Remote) (p : Prog A) (s : RemoteState srv)
  : A * RemoteState srv * list AnyCall :=
  match p with
  | Ret a => (a, s, [])
  | Vis e k =>
      let '(r, s1) := answer srv _ e s in
      let '(a, s2, calls) := run srv (k r) s1 in
      (a, s2, anyCall e :: calls)
  end.

(* ===================================================================== *)
(** ** internal/calendar/google/client.go *)
(* ===================================================================== *)

Module google.

(** Client implements the calendar.Client interface for Google
    Calendar. *)
Record Client : Type := mkClient {
  service : gcal.Service;
  calendarID : string
}.

(** A method has a pointer receiver: it runs on the client it is given
    and hands back the client it leaves behind. *)
Definition Method (A : Type) : Type := Client -> Prog (A * Client).

Definition ret {A : Type} (a : A) : Method A := fun c => Ret (a, c).

Definition bind {A B : Type} (m : Method A) (f : A -> Method B) : Method B :=
  fun c => Prog_bind (m c) (fun '(a, c') => f a c').

(** The receiver, as it is now. *)
Definition this : Method Client := fun c => Ret (c, c).

(** [call.Do()]. *)
Definition Do {R : Type} (e : gcal.Call R) : Method R :=
  fun c => Vis e (fun r => Ret (r, c)).

Notation "x <- m ;; f" := (bind m (fun x => f))
  (at level 100, m at next level, right associativity).

Section Client.
Context `{time.API}.

(** The body of the loop over [cal.Busy]: an interval whose start or end
    does not parse is skipped, any other is appended. *)
Definition busyStep (timeBlocks : list calendar.TimeBlock) (busy : gcal.TimePeriod)
  : list calendar.TimeBlock :=
  match time.Parse time.RFC3339 (gcal.TimePeriod_Start busy) with
  | Err _ => timeBlocks
  | Ok start =>
      match time.Parse time.RFC3339 (gcal.TimePeriod_End busy) with
      | Err _ => timeBlocks
      | Ok end_ =>
          timeBlocks ++ [calendar.mkTimeBlock start end_ "google_calendar"]
      end
  end.

(** ListBusy returns all busy time blocks between from and to. *)
Definition ListBusy (from to : time.Time)
  : Method (list calendar.TimeBlock * option error) :=
  c <- this ;;
  let query := {|
    gcal.FreeBusyRequest_TimeMin := time.Format from time.RFC3339;
    gcal.FreeBusyRequest_TimeMax := time.Format to time.RFC3339;
    gcal.FreeBusyRequest_Items :=
      [ {| gcal.FreeBusyRequestItem_Id := calendarID c |} ]
  |} in
  r <- Do (gcal.FreebusyQuery (service c) query) ;;
  match r with
  | Err err => ret ([], Some (ErrWrap "failed to query free/busy" err))
  | Ok result =>
      c <- this ;;
      let timeBlocks :=
        match gcal.FreeBusyResponse_Calendars result !! calendarID c with
        | Some cal => fold_left busyStep (gcal.FreeBusyCalendar_Busy cal) []
        | None => []
        end in
      ret (timeBlocks, None)
  end.

(** CreateEvent creates a new calendar event and returns the event ID. *)
Definition CreateEvent (appt : calendar.Appointment)
  : Method (string * option error) :=
  let event := {|
    gcal.Event_Id := "";
    gcal.Event_Summary := calendar.Appointment_Summary appt;
    gcal.Event_Description := calendar.Appointment_Description appt;
    gcal.Event_Start := Some {|
      gcal.EventDateTime_Date := "";
      gcal.EventDateTime_DateTime :=
        time.Format (calendar.Appointment_Start appt) time.RFC3339;
      gcal.EventDateTime_TimeZone := calendar.Appointment_Timezone appt |};
    gcal.Event_End := Some {|
      gcal.EventDateTime_Date := "";
      gcal.EventDateTime_DateTime :=
        time.Format (calendar.Appointment_End appt) time.RFC3339;
      gcal.EventDateTime_TimeZone := calendar.Appointment_Timezone appt |};
    gcal.Event_Location := calendar.Appointment_Location appt;
    gcal.Event_Attendees := [];
    gcal.Event_Status := "";
    gcal.Event_Etag := "";
    gcal.Event_HtmlLink := "";
    gcal.Event_ColorId := "";
    gcal.Event_Visibility := "";
    gcal.Event_Recurrence := [];
    gcal.Event_Sequence := 0;
    gcal.Event_ExtendedProperties := ∅
  |} in
  let event :=
    if decide (calendar.Appointment_AttendeeEmail appt ≠ "") then
      gcal.Event_setAttendees
        [ {| gcal.EventAttendee_Email := calendar.Appointment_AttendeeEmail appt;
             gcal.EventAttendee_DisplayName := "";
             gcal.EventAttendee_Comment := "";
             gcal.EventAttendee_ResponseStatus := "";
             gcal.EventAttendee_Optional := false;
             gcal.EventAttendee_Organizer := false |} ]
        event
    else event in
  c <- this ;;
  r <- Do (gcal.EventsInsert (service c) (calendarID c) event) ;;
  match r with
  | Err err => ret ("", Some (ErrWrap "failed to create calendar event" err))
  | Ok createdEvent => ret (gcal.Event_Id createdEvent, None)
  end.

(** UpdateEvent updates an existing calendar event. *)
Definition UpdateEvent (eventID : string) (appt : calendar.Appointment)
  : Method (option error) :=
  c <- this ;;
  r <- Do (gcal.EventsGet (service c) (calendarID c) eventID) ;;
  match r with
  | Err err => ret (Some (ErrWrap "failed to get existing event" err))
  | Ok existingEvent =>
      let existingEvent :=
        gcal.Event_setSummary (calendar.Appointment_Summary appt) existingEvent in
      let existingEvent :=
        gcal.Event_setDescription (calendar.Appointment_Description appt)
          existingEvent in
      let existingEvent :=
        gcal.Event_setStart (Some {|
          gcal.EventDateTime_Date := "";
          gcal.EventDateTime_DateTime :=
            time.Format (calendar.Appointment_Start appt) time.RFC3339;
          gcal.EventDateTime_TimeZone := calendar.Appointment_Timezone appt |})
          existingEvent in
      let existingEvent :=
        gcal.Event_setEnd (Some {|
          gcal.EventDateTime_Date := "";
          gcal.EventDateTime_DateTime :=
            time.Format (calendar.Appointment_End appt) time.RFC3339;
          gcal.EventDateTime_TimeZone := calendar.Appointment_Timezone appt |})
          existingEvent in
      let existingEvent :=
        gcal.Event_setLocation (calendar.Appointment_Location appt)
          existingEvent in
      let existingEvent :=
        if decide (calendar.Appointment_AttendeeEmail appt ≠ "") then
          gcal.Event_setAttendees
            [ {| gcal.EventAttendee_Email := calendar.Appointment_AttendeeEmail appt;
                 gcal.EventAttendee_DisplayName := "";
                 gcal.EventAttendee_Comment := "";
                 gcal.EventAttendee_ResponseStatus := "";
                 gcal.EventAttendee_Optional := false;
                 gcal.EventAttendee_Organizer := false |} ]
            existingEvent
        else existingEvent in
      c <- this ;;
      r <- Do (gcal.EventsUpdate (service c) (calendarID c) eventID existingEvent) ;;
      match r with
      | Err err => ret (Some (ErrWrap "failed to update calendar event" err))
      | Ok _ => ret None
      end
  end.

(** DeleteEvent deletes a calendar event. *)
Definition DeleteEvent (eventID : string) : Method (option error) :=
  c <- this ;;
  err <- Do (gcal.EventsDelete (service c) (calendarID c) eventID) ;;
  match err with
  | Some err => ret (Some (ErrWrap "failed to delete calendar event" err))
  | None => ret None
  end.

End Client.
End google.

(* ===================================================================== *)
(** ** Reference instances, for running the code on concrete inputs *)
(* ===================================================================== *)

(** Every statement below holds for any implementation of the library
    interfaces and for any remote side.  The instances of this part are
    the ones the examples run on. *)

Module rfc3339.

(** A wall-clock reading with its offset from UTC in minutes, whole
    seconds only. *)
Record Instant : Type := mkInstant {
  year : N; month : N; day : N;
  hour : N; minute : N; second : N;
  zoneMinutes : Z
}.

Definition digit (c : ascii) : option N :=
  let n := N_of_ascii c in
  if ((48 <=? n) && (n <=? 57))%N then Some (n - 48)%N else None.

Definition num2 (a b : ascii) : option N :=
  match digit a, digit b with
  | Some x, Some y => Some (10 * x + y)%N
  | _, _ => None
  end.

Definition num4 (a b c d : ascii) : option N :=
  match num2 a b, num2 c d with
  | Some x, Some y => Some (100 * x + y)%N
  | _, _ => None
  end.

Definition isLeap (y : N) : bool :=
  ((y mod 4 =? 0) && (negb (y mod 100 =? 0) || (y mod 400 =? 0)))%N.

Definition daysIn (y m : N) : N :=
  if (m =? 2)%N then (if isLeap y then 29 else 28)%N
  else if ((m =? 4) || (m =? 6) || (m =? 9) || (m =? 11))%N then 30%N
  else 31%N.

Definition parseZone (zone : list ascii) : option Z :=
  match zone with
  | [z] => if Ascii.eqb z "Z" then Some 0%Z else None
  | [sg; h1; h2; c; m1; m2] =>
      match num2 h1 h2, num2 m1 m2 with
      | Some h, Some m =>
          if Ascii.eqb c ":" && (h <? 24)%N && (m <? 60)%N then
            if Ascii.eqb sg "+" then Some (Z.of_N (60 * h + m))
            else if Ascii.eqb sg "-" then Some (- Z.of_N (60 * h + m))%Z
            else None
          else None
      | _, _ => None
      end
  | _ => None
  end.

Definition parse (value : string) : Result Instant :=
  match list_ascii_of_string value with
  | y1 :: y2 :: y3 :: y4 :: c1 :: m1 :: m2 :: c2 :: d1 :: d2 :: t
      :: h1 :: h2 :: c3 :: n1 :: n2 :: c4 :: s1 :: s2 :: zone =>
      match num4 y1 y2 y3 y4, num2 m1 m2, num2 d1 d2,
            num2 h1 h2, num2 n1 n2, num2 s1 s2, parseZone zone with
      | Some y, Some mo, Some d, Some h, Some mi, Some se, Some z =>
          if Ascii.eqb c1 "-" && Ascii.eqb c2 "-" && Ascii.eqb t "T"
             && Ascii.eqb c3 ":" && Ascii.eqb c4 ":"
             && (1 <=? mo)%N && (mo <=? 12)%N
             && (1 <=? d)%N && (d <=? daysIn y mo)%N
             && (h <? 24)%N && (mi <? 60)%N && (se <? 60)%N
          then Ok (mkInstant y mo d h mi se z)
          else Err (ErrParse "parsing time: out of range")
      | _, _, _, _, _, _, _ => Err (ErrParse "parsing time: cannot parse")
      end
  | _ => Err (ErrParse "parsing time: cannot parse")
  end.

Definition digitChar (n : N) : ascii := ascii_of_N (48 + n mod 10).

Definition pad2 (n : N) : string :=
  String (digitChar (n / 10)) (String (digitChar n) EmptyString).

Definition formatZone (z : Z) : string :=
  if (z =? 0)%Z then "Z"
  else
    let a := Z.to_N (Z.abs z) in
    (if (z <? 0)%Z then "-" else "+") ++ pad2 (a / 60) ++ ":" ++ pad2 (a mod 60).

Definition format (t : Instant) : string :=
  pad2 (year t / 100) ++ pad2 (year t) ++ "-" ++ pad2 (month t) ++ "-"
    ++ pad2 (day t) ++ "T" ++ pad2 (hour t) ++ ":" ++ pad2 (minute t) ++ ":"
    ++ pad2 (second t) ++ formatZone (zoneMinutes t).

(** Only the layout the code uses is implemented. *)
#[export] Instance api : time.API := {|
  time.Time := Instant;
  time.Format := fun t layout =>
    if String.eqb layout time.RFC3339 then format t else layout;
  time.Parse := fun layout value =>
    if String.eqb layout time.RFC3339 then parse value
    else Err (ErrParse "parsing time: layout not implemented")
|}.

End rfc3339.

Module envfile.

Definition isLF (b : byte) : bool := Byte.eqb b "010"%byte.

(** Splits at line feeds. *)
Fixpoint lines (cur : list byte) (src : list byte) : list (list byte) :=
  match src with
  | [] => [rev cur]
  | b :: rest => if isLF b then rev cur :: lines [] rest else lines (b :: cur) rest
  end.

(** Splits a line at its first '='. *)
Fixpoint keyValue (key : list byte) (line : list byte)
  : option (string * string) :=
  match line with
  | [] => None
  | b :: rest =>
      if Byte.eqb b "="%byte
      then Some (string_of_list_byte (rev key), string_of_list_byte rest)
      else keyValue (b :: key) rest
  end.

Fixpoint parseLines (ls : list (list byte)) : Result (gmap string string) :=
  match ls with
  | [] => Ok ∅
  | [] :: rest => parseLines rest
  | line :: rest =>
      match keyValue [] line, parseLines rest with
      | Some (k, v), Ok m => Ok (<[k := v]> m)
      | None, _ => Err (ErrParse "unexpected character in variable name")
      | _, Err e => Err e
      end
  end.

(** KEY=VALUE lines, empty lines skipped: a fragment of the syntax the
    library reads. *)
#[export] Instance syntax : DotenvSyntax := {|
  dotenv_Parse := fun content => parseLines (lines [] content)
|}.

End envfile.

Module fake.

(** An in-memory calendar service: the events it stores by calendar and
    event identifier, the free/busy table it answers every query with,
    and a counter for fresh identifiers. *)
Record State : Type := mkState {
  events : gmap (string * string) gcal.Event;
  busy : gmap string gcal.FreeBusyCalendar;
  nextId : nat
}.

Definition notFound : error := ErrRemote 404 "Not Found".

Definition answer (R : Type) (e : gcal.Call R) (s : State) : R * State :=
  match e in gcal.Call R return R * State with
  | gcal.FreebusyQuery _ _ => (Ok (gcal.mkFreeBusyResponse (busy s)), s)
  | gcal.EventsInsert _ cal ev =>
      let ev' := gcal.Event_setId ("evt" ++ pretty (nextId s)) ev in
      (Ok ev',
       mkState (<[(cal, gcal.Event_Id ev') := ev']> (events s)) (busy s)
         (S (nextId s)))
  | gcal.EventsGet _ cal id =>
      match events s !! (cal, id) with
      | Some ev => (Ok ev, s)
      | None => (Err notFound, s)
      end
  | gcal.EventsUpdate _ cal id ev =>
      match events s !! (cal, id) with
      | Some _ =>
          let ev' := gcal.Event_setId id ev in
          (Ok ev', mkState (<[(cal, id) := ev']> (events s)) (busy s) (nextId s))
      | None => (Err notFound, s)
      end
  | gcal.EventsDelete _ cal id =>
      match events s !! (cal, id) with
      | Some _ => (None, mkState (delete (cal, id) (events s)) (busy s) (nextId s))
      | None => (Some notFound, s)
      end
  end.

Definition remote : Remote := mkRemote State answer.

End fake.


(* ===================================================================== *)
(** ** The specification's words, as definitions *)
(* ===================================================================== *)

Module spec.

(** "Fails with a no credentials provided error". *)
Definition noCredentials : error := ErrNew "no Google credentials provided".

(** The credential resolution as the specification words it: a string
    that decodes gives the decoded bytes; otherwise a string that names
    an existing file gives that file's bytes; otherwise the string's own
    bytes come back. *)
Definition resolutionOrder (c : config.Config) (w : OS) : Prop :=
  let s := config.GoogleCredsJSON c in
  match base64.DecodeString s with
  | (decoded, None) => config.GetGoogleCreds c w = (decoded, None)
  | (_, Some _) =>
      match fs w !! s with
      | Some (File content) => config.GetGoogleCreds c w = (content, None)
      | _ => config.GetGoogleCreds c w = (list_byte_of_string s, None)
      end
  end.

(** "For every non-empty field it returns some byte result". *)
Definition returnsBytes (c : config.Config) (w : OS) : Prop :=
  exists b, config.GetGoogleCreds c w = (b, None).

Section resolver.
Context `{DotenvSyntax}.

(** The environment [Load] reads its settings from: the one it was
    started in, extended by the overlay files. *)
Definition overlaid (w : OS) : OS := snd (config.Load w).

(** "All fields populated from environment variables or their
    defaults". *)
Definition resolved (w : OS) : config.Config := {|
  config.Env := config.getEnv w "APP_ENV" "development";
  config.HttpPort := config.getEnv w "HTTP_PORT" "8080";
  config.Timezone := config.getEnv w "TZ" "UTC";
  config.GCalCalendarID := config.getEnv w "GCAL_CALENDAR_ID" "";
  config.GoogleCredsJSON := config.getEnv w "GOOGLE_CREDS_JSON" "";
  config.SupabaseURL := config.getEnv w "SUPABASE_URL" "";
  config.SupabaseKey := config.getEnv w "SUPABASE_KEY" "";
  config.RedisURL := config.getEnv w "REDIS_URL" "redis://localhost:6379"
|}.

(** The zero value of the struct. *)
Definition zeroConfig : config.Config :=
  config.mkConfig "" "" "" "" "" "" "" "".

End resolver.

Section calendar.
Context `{time.API}.

Definition parses (value : string) : Prop :=
  exists t, time.Parse time.RFC3339 value = Ok t.

(** A busy interval whose start or end timestamp fails to parse. *)
Definition unparsable (p : gcal.TimePeriod) : Prop :=
  ¬ parses (gcal.TimePeriod_Start p) ∨ ¬ parses (gcal.TimePeriod_End p).

(** The well-formed intervals of a list, in order, each tagged with
    the fixed source label. *)
Fixpoint wellFormedBlocks (l : list gcal.TimePeriod) : list calendar.TimeBlock :=
  match l with
  | [] => []
  | p :: rest =>
      match time.Parse time.RFC3339 (gcal.TimePeriod_Start p),
            time.Parse time.RFC3339 (gcal.TimePeriod_End p) with
      | Ok start, Ok end_ =>
          calendar.mkTimeBlock start end_ "google_calendar"
            :: wellFormedBlocks rest
      | _, _ => wellFormedBlocks rest
      end
  end.

(** The one free/busy query of a window: its two ends in the wire
    format, and the bound calendar as the only item. *)
Definition aggregateQuery (from to : time.Time) (c : google.Client)
  : gcal.Call (Result gcal.FreeBusyResponse) :=
  gcal.FreebusyQuery (google.service c)
    (gcal.mkFreeBusyRequest (time.Format from time.RFC3339)
       (time.Format to time.RFC3339)
       [gcal.mkFreeBusyRequestItem (google.calendarID c)]).

(** The same appointment under another attendee name. *)
Definition withAttendeeName (name : string) (appt : calendar.Appointment)
  : calendar.Appointment :=
  calendar.mkAppointment (calendar.Appointment_Summary appt)
    (calendar.Appointment_Description appt) (calendar.Appointment_Start appt)
    (calendar.Appointment_End appt) name (calendar.Appointment_AttendeeEmail appt)
    (calendar.Appointment_Location appt) (calendar.Appointment_Timezone appt).

(** An attendee entry holding only the email. *)
Definition emailOnly (email : string) : gcal.EventAttendee :=
  gcal.mkEventAttendee email "" "" "" false false.

(** The attendee list an Appointment stands for on the wire: none
    without an email, one entry with it. *)
Definition appointmentAttendees (appt : calendar.Appointment)
  : list gcal.EventAttendee :=
  if decide (calendar.Appointment_AttendeeEmail appt = "") then []
  else [emailOnly (calendar.Appointment_AttendeeEmail appt)].

Definition wireTime (t : time.Time) (tz : string) : option gcal.EventDateTime :=
  Some (gcal.mkEventDateTime "" (time.Format t time.RFC3339) tz).

(** "The remote event carries the Appointment's values for all six of
    those fields". *)
Definition carriesAppointment (ev : gcal.Event) (appt : calendar.Appointment)
  : Prop :=
  gcal.Event_Summary ev = calendar.Appointment_Summary appt
  ∧ gcal.Event_Description ev = calendar.Appointment_Description appt
  ∧ gcal.Event_Start ev
    = wireTime (calendar.Appointment_Start appt) (calendar.Appointment_Timezone appt)
  ∧ gcal.Event_End ev
    = wireTime (calendar.Appointment_End appt) (calendar.Appointment_Timezone appt)
  ∧ gcal.Event_Location ev = calendar.Appointment_Location appt
  ∧ gcal.Event_Attendees ev = appointmentAttendees appt.

(** "Fields outside the Appointment type are carried over". *)
Definition sameOtherFields (ev old : gcal.Event) : Prop :=
  gcal.Event_Id ev = gcal.Event_Id old
  ∧ gcal.Event_Status ev = gcal.Event_Status old
  ∧ gcal.Event_Etag ev = gcal.Event_Etag old
  ∧ gcal.Event_HtmlLink ev = gcal.Event_HtmlLink old
  ∧ gcal.Event_ColorId ev = gcal.Event_ColorId old
  ∧ gcal.Event_Visibility ev = gcal.Event_Visibility old
  ∧ gcal.Event_Recurrence ev = gcal.Event_Recurrence old
  ∧ gcal.Event_Sequence ev = gcal.Event_Sequence old
  ∧ gcal.Event_ExtendedProperties ev = gcal.Event_ExtendedProperties old.

(** The update as the specification words it: whenever the fetch and
    the update both succeed, the event sent carries the Appointment's
    six fields and keeps the others. *)
Definition updateCarriesAllSix (srv : Remote) : Prop :=
  forall (s : RemoteState srv) (eventID : string)
         (appt : calendar.Appointment) (c : google.Client),
    (run srv (google.UpdateEvent eventID appt c) s).1.1.1 = None ->
    exists existing payload,
      (answer srv _ (gcal.EventsGet (google.service c) (google.calendarID c)
                       eventID) s).1 = Ok existing
      ∧ (run srv (google.UpdateEvent eventID appt c) s).2
        = [anyCall (gcal.EventsGet (google.service c) (google.calendarID c)
                      eventID);
           anyCall (gcal.EventsUpdate (google.service c) (google.calendarID c)
                      eventID payload)]
      ∧ carriesAppointment payload appt
      ∧ sameOtherFields payload existing.

End calendar.

(** The event a call sends, for the two calls that send one. *)
Definition sentEvent (a : AnyCall) : option gcal.Event :=
  match projT2 a with
  | gcal.EventsInsert _ _ ev => Some ev
  | gcal.EventsUpdate _ _ _ ev => Some ev
  | _ => None
  end.

Definition isEventsUpdate (a : AnyCall) : bool :=
  match projT2 a with
  | gcal.EventsUpdate _ _ _ _ => true
  | _ => false
  end.

End spec.

(* ===================================================================== *)
(** ** Concrete inputs *)
(* ===================================================================== *)

Module sample.
Import rfc3339 envfile.

Definition withCreds (creds : string) : config.Config :=
  config.mkConfig "development" "8080" "UTC" "primary" creds "" ""
    "redis://localhost:6379".

Definition serviceAccount : list byte :=
  list_byte_of_string "{type:service_account}".

(** A working directory with a credentials file, and a file whose name
    happens to be valid base64. *)
Definition disk : gmap string Node :=
  <["." := Dir]> (<["creds.json" := File serviceAccount]>
    (<["aGk=" := File (list_byte_of_string "on disk")]> ∅)).

Definition machine : OS := mkOS disk ∅.

(** Production is asked for, and nothing else is set. *)
Definition bareProduction : OS := mkOS disk (<["APP_ENV" := "production"]> ∅).

(** The same, with a config.env that completes the settings and no
    .env. *)
Definition overlaidProduction : OS :=
  mkOS (<["config.env" := File (list_byte_of_string
"GCAL_CALENDAR_ID=primary
GOOGLE_CREDS_JSON=creds.json
APP_ENV=staging")]> disk)
    (<["APP_ENV" := "production"]> ∅).

Definition client : google.Client :=
  google.mkClient (gcal.mkService serviceAccount) "primary".

Definition nine : time.Time := mkInstant 2024 3 1 9 0 0 0.
Definition ten : time.Time := mkInstant 2024 3 1 10 0 0 0.

Definition good : gcal.TimePeriod :=
  gcal.mkTimePeriod "2024-03-01T09:00:00Z" "2024-03-01T10:00:00Z".
Definition bad : gcal.TimePeriod :=
  gcal.mkTimePeriod "yesterday" "2024-03-01T10:00:00Z".

Definition oldAttendee : gcal.EventAttendee :=
  gcal.mkEventAttendee "old@example.com" "Old Guest" "" "accepted" false false.

Definition stored : gcal.Event :=
  gcal.mkEvent "evt1" "Old title" "Old text" None None "Room 1" [oldAttendee]
    "confirmed" "etag-1" "" "7" "private" [] 3 (<["ticket" := "T-1"]> ∅).

(** The appointment names no attendee. *)
Definition noAttendee : calendar.Appointment :=
  calendar.mkAppointment "New title" "New text" nine ten "" "" "Room 2" "UTC".

(** The appointment names a new attendee. *)
Definition withGuest : calendar.Appointment :=
  calendar.mkAppointment "New title" "New text" nine ten "New Guest"
    "new@example.com" "Room 2" "UTC".

Definition state : fake.State :=
  fake.mkState (<[("primary", "evt1") := stored]> ∅)
    (<["primary" := gcal.mkFreeBusyCalendar [bad; good]]>
      (<["other" := gcal.mkFreeBusyCalendar [good; good]]> ∅))
    0.

End sample.

(* ===================================================================== *)
(** ** The overlay of environment files, in closed form *)
(* ===================================================================== *)

Module overlay.
Section overlay.
Context `{DotenvSyntax}.

(** The pairs [os.Setenv] accepts. *)
Definition settable (key value : string) : bool :=
  negb (String.eqb key "" || os.hasChar "="%char key || os.hasChar zero key
        || os.hasChar zero value).

(** What one environment file has to offer: the settable pairs it parses
    to, and nothing when it cannot be read or parsed. *)
Definition offered (w : OS) (filename : string) : gmap string string :=
  match godotenv.readFile filename w with
  | Ok envMap => filter (fun kv => settable kv.1 kv.2 = true) envMap
  | Err _ => ∅
  end.

(** The file [config.Load] ends up taking its overlay from: .env when
    something of that name exists, config.env otherwise. *)
Definition chosen (w : OS) : string :=
  match fs w !! ".env" with
  | Some _ => ".env"
  | None => "config.env"
  end.

(** The state the settings are read in: the files as they are, and the
    environment of the process with, under it, what the chosen file
    offers. *)
Definition effective (w : OS) : OS :=
  mkOS (fs w) (environ w ∪ offered w (chosen w)).

End overlay.
End overlay.

Module machines.
Import envfile.

(** A .env that binds the calendar, next to a config.env that binds
    something else; the process exports an empty GCAL_CALENDAR_ID and a
    port. *)
Definition twoFiles : OS :=
  mkOS (<[".env" := File (list_byte_of_string
"GCAL_CALENDAR_ID=from-dotenv
TZ=Europe/Lisbon
HTTP_PORT=9000")]>
         (<["config.env" := File (list_byte_of_string "TZ=Asia/Tokyo")]> ∅))
    (<["HTTP_PORT" := "3000"]> (<["GCAL_CALENDAR_ID" := ""]> ∅)).

(** Only config.env, and an empty process environment. *)
Definition onlyConfigEnv : OS :=
  mkOS (<["config.env" := File (list_byte_of_string "TZ=Asia/Tokyo")]> ∅) ∅.

(** A .env that is a directory, next to a good config.env. *)
Definition brokenDotenv : OS :=
  mkOS (<[".env" := Dir]>
         (<["config.env" := File (list_byte_of_string "TZ=Asia/Tokyo")]> ∅))
    (<["APP_ENV" := "staging"]> ∅).

(** No file at all. *)
Definition noFiles : OS := mkOS ∅ (<["APP_ENV" := "staging"]> ∅).

(** Nothing exported, and a config.env that asks for production on
    port 7000 without naming a calendar. *)
Definition productionByFile : OS :=
  mkOS (<["config.env" := File (list_byte_of_string
"APP_ENV=production
HTTP_PORT=7000")]> ∅) ∅.

(** A credentials file the process may not read. *)
Definition lockedCreds : OS :=
  mkOS (<["locked.json" := Unreadable [] "open" "permission denied"]> ∅) ∅.

End machines.

Module doubles.

(** A calendar service that is down: every call fails. *)
Definition unavailable : error := ErrRemote 503 "Service Unavailable".

Definition downAnswer (R : Type) (e : gcal.Call R) (s : unit) : R * unit :=
  match e in gcal.Call R return R * unit with
  | gcal.FreebusyQuery _ _ => (Err unavailable, s)
  | gcal.EventsInsert _ _ _ => (Err unavailable, s)
  | gcal.EventsGet _ _ _ => (Err unavailable, s)
  | gcal.EventsUpdate _ _ _ _ => (Err unavailable, s)
  | gcal.EventsDelete _ _ _ => (Some unavailable, s)
  end.

Definition down : Remote := mkRemote unit downAnswer.

(** A calendar shared for reading only: queries and fetches are answered
    as by the in-memory service, every write is refused. *)
Definition forbidden : error := ErrRemote 403 "Forbidden".

Definition readOnlyAnswer (R : Type) (e : gcal.Call R) (s : fake.State)
  : R * fake.State :=
  match e in gcal.Call R return R * fake.State with
  | gcal.FreebusyQuery svc q => fake.answer _ (gcal.FreebusyQuery svc q) s
  | gcal.EventsGet svc cal id => fake.answer _ (gcal.EventsGet svc cal id) s
  | gcal.EventsInsert _ _ _ => (Err forbidden, s)
  | gcal.EventsUpdate _ _ _ _ => (Err forbidden, s)
  | gcal.EventsDelete _ _ _ => (Some forbidden, s)
  end.

Definition readOnly : Remote := mkRemote fake.State readOnlyAnswer.

End doubles.

(* ===================================================================== *)
(** ** NewClient, and the libraries it opens a session with *)
(* ===================================================================== *)

(** golang.org/x/oauth2/google and the constructor of the calendar
    service: what they accept is theirs to say. *)
Module googleapis.

Definition CalendarScope : string := "https://www.googleapis.com/auth/calendar".

Class Auth : Type := {
  JWTConfig : Type;
  HTTPClient : Type;
  JWTConfigFromJSON : list byte -> list string -> Result JWTConfig;
  JWTConfig_Client : JWTConfig -> HTTPClient;
  NewService : HTTPClient -> Result gcal.Service
}.

End googleapis.

Module google_client.
Section NewClient.
Context `{googleapis.Auth}.

(** NewClient creates a new Google Calendar client.  A nil pointer is
    [None]. *)
Definition NewClient (cfg : config.Config) (w : OS)
  : option google.Client * option error :=
  match config.GetGoogleCreds cfg w with
  | (_, Some err) => (None, Some (ErrWrap "failed to get Google credentials" err))
  | (creds, None) =>
      match googleapis.JWTConfigFromJSON creds [googleapis.CalendarScope] with
      | Err err => (None, Some (ErrWrap "failed to create JWT config" err))
      | Ok jwtConfig =>
          let client := googleapis.JWTConfig_Client jwtConfig in
          match googleapis.NewService client with
          | Err err =>
              (None, Some (ErrWrap "failed to create calendar service" err))
          | Ok service =>
              (Some (google.mkClient service (config.GCalCalendarID cfg)), None)
          end
      end
  end.

End NewClient.
End google_client.

(* ===================================================================== *)
(** ** What a command writes, and how it ends *)
(* ===================================================================== *)

Inductive Value : Type :=
| VStr (s : string)
| VErr (e : error)
| VInt (n : Z).

(** A line of output by the call that wrote it, with the format string
    of the source and the arguments in order; the start of a listener is
    recorded among them. *)
Inductive Output : Type :=
| Println (line : string)
| Printf (format : string) (args : list Value)
| LogPrintf (format : string) (args : list Value)
| LogFatalf (format : string) (args : list Value)
| NetListen (addr : string).

(** A command returns, or the process exits with a code ([os.Exit], and
    [log.Fatalf] with code 1). *)
Inductive Status : Type :=
| Returned
| Exited (code : Z).

(** The line feed of a Go string literal. *)
Definition LF : string := String (ascii_of_N 10) EmptyString.

(* ===================================================================== *)
(** ** cmd/api/main.go *)
(* ===================================================================== *)

Module fiber.

Definition StatusInternalServerError : Z := 500.

(** An error on its way to the error handler: a [*fiber.Error], or any
    other error with the text of its [Error()]. *)
Inductive HandlerError : Type :=
| Error (Code : Z) (Message : string)
| Other (text : string).

Definition HandlerError_Error (err : HandlerError) : string :=
  match err with
  | Error _ Message => Message
  | Other text => text
  end.

(** A value of a [fiber.Map]. *)
Inductive Any : Type :=
| AString (s : string)
| ABool (b : bool).

(** A response: its status code and its JSON body. *)
Record Response : Type := mkResponse {
  Response_Status : Z;
  Response_JSON : gmap string Any
}.

(** The application as [main] builds it. *)
Record App : Type := mkApp {
  App_ErrorHandler : HandlerError -> Response;
  App_Use : list string;
  App_Get : gmap string Response
}.

End fiber.

Module api.

Definition ErrorHandler (err : fiber.HandlerError) : fiber.Response :=
  let code := fiber.StatusInternalServerError in
  let code :=
    match err with
    | fiber.Error Code _ => Code
    | fiber.Other _ => code
    end in
  fiber.mkResponse code {[ "error" := fiber.AString (fiber.HandlerError_Error err) ]}.

(** The handler of /healthz. *)
Definition healthz (cfg : config.Config) : fiber.Response :=
  let envSummary : gmap string fiber.Any :=
    <["status" := fiber.AString "ok"]>
    (<["env" := fiber.AString (config.Env cfg)]>
    (<["http_port" := fiber.AString (config.HttpPort cfg)]>
    (<["timezone" := fiber.AString (config.Timezone cfg)]>
    (<["gcal_calendar_id" := fiber.AString (config.GCalCalendarID cfg)]>
    (<["has_google_creds" :=
         fiber.ABool (Nat.ltb 0 (String.length (config.GoogleCredsJSON cfg)))]>
    (<["has_supabase_url" :=
         fiber.ABool (Nat.ltb 0 (String.length (config.SupabaseURL cfg)))]>
    (<["has_supabase_key" :=
         fiber.ABool (Nat.ltb 0 (String.length (config.SupabaseKey cfg)))]>
    (<["redis_url" := fiber.AString (config.RedisURL cfg)]> ∅)))))))) in
  fiber.mkResponse 200 envSummary.

Section main.
Context `{DotenvSyntax}.

(** [Listen] is the network's: it gives the error the listener ends
    with, if any. *)
Variable Listen : fiber.App -> string -> option error.

Definition main (w : OS) : (list Output * Status) * OS :=
  let '((cfg, err), w1) := config.Load w in
  match err with
  | Some err =>
      (([LogFatalf "Failed to load config: %v" [VErr err]], Exited 1), w1)
  | None =>
      let app := fiber.mkApp ErrorHandler ["logger"]
                   {[ "/healthz" := healthz cfg ]} in
      let port := ":" ++ config.HttpPort cfg in
      let out := [LogPrintf "Starting server on port %s" [VStr port];
                  NetListen port] in
      match Listen app port with
      | Some err =>
          (((out ++ [LogFatalf "Failed to start server: %v" [VErr err]])%list,
            Exited 1), w1)
      | None => ((out, Returned), w1)
      end
  end.

End main.
End api.

(* ===================================================================== *)
(** ** Package time, continued: durations *)
(* ===================================================================== *)

Module duration.

(** A [time.Duration] counts nanoseconds. *)
Definition Hour : Z := 3600 * 1000000000.

Class Arith `{time.API} : Type := {
  Add : time.Time -> Z -> time.Time
}.

End duration.

(* ===================================================================== *)
(** ** cmd/cli/main.go *)
(* ===================================================================== *)

Module cli.

(** The flags of a command as cobra holds them after parsing, defaults
    included; [GetString] of a flag that is not there gives the empty
    string, and the code drops the error. *)
Definition GetString (flags : gmap string string) (name : string) : string :=
  default "" (flags !! name).

Section cli.
Context `{DotenvSyntax} `{googleapis.Auth} `{api : time.API} `{!duration.Arith}.

(** [init] fills the package variables [cfg] and [client]. *)
Definition init (w : OS)
  : (config.Config * option google.Client * list Output) * OS :=
  let '((cfg, err), w1) := config.Load w in
  let out :=
    match err with
    | Some err => [LogPrintf "Warning: Failed to load config: %v" [VErr err]]
    | None => []
    end in
  if decide (config.GCalCalendarID cfg ≠ "" ∧ config.GoogleCredsJSON cfg ≠ "") then
    let '(client, err) := google_client.NewClient cfg w1 in
    let out :=
      match err with
      | Some err =>
          (out ++ [LogPrintf
                     "Warning: Failed to initialize Google Calendar client: %v"
                     [VErr err]])%list
      | None => out
      end in
    ((cfg, client, out), w1)
  else ((cfg, None, out), w1).

(** The lines for the blocks found, numbered from 1. *)
Definition blockLines (timeBlocks : list calendar.TimeBlock) : list Output :=
  imap (fun i block =>
          Printf ("%d. %s - %s (%s)" ++ LF)
            [VInt (Z.of_nat i + 1);
             VStr (time.Format (calendar.TimeBlock_Start block) "2006-01-02 15:04");
             VStr (time.Format (calendar.TimeBlock_End block) "2006-01-02 15:04");
             VStr (calendar.TimeBlock_Source block)])
       timeBlocks.

(** The [Run] of list-busy. *)
Definition listBusyRun (client : option google.Client) (flags : gmap string string)
  : Prog (list Output * Status) :=
  match client with
  | None => Ret ([Println "Error: Google Calendar client not initialized"], Exited 1)
  | Some client =>
      let fromStr := GetString flags "from" in
      let toStr := GetString flags "to" in
      match time.Parse "2006-01-02" fromStr with
      | Err err =>
          Ret ([Printf ("Error parsing from date: %v" ++ LF) [VErr err]], Exited 1)
      | Ok from =>
          match time.Parse "2006-01-02" toStr with
          | Err err =>
              Ret ([Printf ("Error parsing to date: %v" ++ LF) [VErr err]], Exited 1)
          | Ok to =>
              let from := duration.Add from (24 * duration.Hour) in
              let to := duration.Add to (24 * duration.Hour) in
              Prog_bind (google.ListBusy from to client)
                (fun '((timeBlocks, err), _) =>
                   match err with
                   | Some err =>
                       Ret ([Printf ("Error listing busy blocks: %v" ++ LF)
                               [VErr err]], Exited 1)
                   | None =>
                       Ret (Printf ("Busy time blocks from %s to %s:" ++ LF)
                              [VStr fromStr; VStr toStr]
                            :: (if Nat.eqb (length timeBlocks) 0
                                then [Println "No busy blocks found."]
                                else blockLines timeBlocks),
                            Returned)
                   end)
          end
      end
  end.

(** The [Run] of create-event. *)
Definition createEventRun (client : option google.Client)
    (flags : gmap string string) : Prog (list Output * Status) :=
  match client with
  | None => Ret ([Println "Error: Google Calendar client not initialized"], Exited 1)
  | Some client =>
      let summary := GetString flags "summary" in
      let description := GetString flags "description" in
      let startStr := GetString flags "start" in
      let endStr := GetString flags "end" in
      let attendeeName := GetString flags "attendee-name" in
      let attendeeEmail := GetString flags "attendee-email" in
      let location := GetString flags "location" in
      let timezone := GetString flags "timezone" in
      if decide (summary = "") then
        Ret ([Println "Error: summary is required"], Exited 1)
      else if decide (startStr = "" ∨ endStr = "") then
        Ret ([Println "Error: start and end times are required"], Exited 1)
      else
        match time.Parse "2006-01-02T15:04:05" startStr with
        | Err err =>
            Ret ([Printf ("Error parsing start time: %v" ++ LF) [VErr err]], Exited 1)
        | Ok start =>
            match time.Parse "2006-01-02T15:04:05" endStr with
            | Err err =>
                Ret ([Printf ("Error parsing end time: %v" ++ LF) [VErr err]],
                     Exited 1)
            | Ok end_ =>
                let appt := {|
                  calendar.Appointment_Summary := summary;
                  calendar.Appointment_Description := description;
                  calendar.Appointment_Start := start;
                  calendar.Appointment_End := end_;
                  calendar.Appointment_AttendeeName := attendeeName;
                  calendar.Appointment_AttendeeEmail := attendeeEmail;
                  calendar.Appointment_Location := location;
                  calendar.Appointment_Timezone := timezone
                |} in
                Prog_bind (google.CreateEvent appt client)
                  (fun '((eventID, err), _) =>
                     match err with
                     | Some err =>
                         Ret ([Printf ("Error creating event: %v" ++ LF) [VErr err]],
                              Exited 1)
                     | None =>
                         Ret ([Printf ("Event created successfully with ID: %s" ++ LF)
                                 [VStr eventID]], Returned)
                     end)
            end
        end
  end.

End cli.
End cli.

(* ===================================================================== *)
(** ** The connection test program (a main package of its own) *)
(* ===================================================================== *)

Module connection_test.
Section main.
Context `{DotenvSyntax} `{googleapis.Auth} `{api : time.API} `{!duration.Arith}.

(** The lines that close a run that got as far as creating the event;
    [err] is the error of the creation. *)
Definition summaryLines (err : option error) : list Output :=
  [Println (LF ++ "🎉 Google Calendar Service Account Test Complete!");
   Println "================================================";
   Println "✅ Configuration: Working";
   Println "✅ Authentication: Working";
   Println "✅ Calendar Access: Working";
   Println "✅ API Connection: Working";
   match err with
   | Some _ => Println "⚠️  Write Permissions: May need calendar sharing setup"
   | None => Println "✅ Write Permissions: Working"
   end].

(** From the listing on, with the client in hand and [out] written so
    far. *)
Definition exercise (now : time.Time) (client : google.Client) (out : list Output)
  : Prog (list Output * Status) :=
  let from := duration.Add now (-24 * duration.Hour) in
  let to := duration.Add now (24 * duration.Hour) in
  Prog_bind (google.ListBusy from to client)
    (fun '((busyTimes, err), client) =>
       match err with
       | Some err =>
           Ret ((out ++ [LogFatalf "❌ Failed to list busy times: %v" [VErr err]])%list,
                Exited 1)
       | None =>
           let out :=
             (out ++ [Printf ("✅ Successfully accessed calendar!" ++ LF) [];
                      Printf ("   Found %d busy time blocks" ++ LF)
                        [VInt (Z.of_nat (length busyTimes))];
                      Println (LF ++ "📝 Testing event creation (optional)...")])%list in
           let testAppt := {|
             calendar.Appointment_Summary := "Test Appointment - Bot Connection";
             calendar.Appointment_Description :=
               "This is a test event to verify the service account connection";
             calendar.Appointment_Start := duration.Add now (1 * duration.Hour);
             calendar.Appointment_End := duration.Add now (2 * duration.Hour);
             calendar.Appointment_AttendeeName := "";
             calendar.Appointment_AttendeeEmail := "";
             calendar.Appointment_Location := "Test Location";
             calendar.Appointment_Timezone := "UTC"
           |} in
           Prog_bind (google.CreateEvent testAppt client)
             (fun '((eventID, err), client) =>
                match err with
                | Some e =>
                    Ret ((out ++ [Printf
                                    ("⚠️  Event creation failed (this might be expected): %v"
                                     ++ LF) [VErr e];
                                  Println
                                    "   This could mean the service account doesn't have write permissions yet"]
                              ++ summaryLines err)%list,
                         Returned)
                | None =>
                    let out :=
                      (out ++ [Printf ("✅ Test event created successfully!" ++ LF) [];
                               Printf ("   Event ID: %s" ++ LF) [VStr eventID];
                               Println "🧹 Cleaning up test event..."])%list in
                    Prog_bind (google.DeleteEvent eventID client)
                      (fun '(derr, _) =>
                         let out :=
                           match derr with
                           | Some derr =>
                               (out ++ [Printf ("⚠️  Failed to delete test event: %v" ++ LF)
                                          [VErr derr]])%list
                           | None =>
                               (out ++ [Println "✅ Test event cleaned up"])%list
                           end in
                         Ret ((out ++ summaryLines err)%list, Returned))
                end)
       end).

(** [now] is what [time.Now()] reads.  A nil client next to a nil error
    would end in a nil dereference, which exits with code 2. *)
Definition main (now : time.Time) (w : OS) : Prog (list Output * Status) * OS :=
  let out := [Println "🧪 Testing Google Calendar API Connection";
              Println "========================================"] in
  let '((cfg, err), w1) := config.Load w in
  match err with
  | Some err =>
      (Ret ((out ++ [LogFatalf "❌ Failed to load config: %v" [VErr err]])%list,
            Exited 1), w1)
  | None =>
      let out :=
        (out ++ [Printf ("✅ Configuration loaded" ++ LF) [];
                 Printf ("   Calendar ID: %s" ++ LF) [VStr (config.GCalCalendarID cfg)];
                 Printf ("   Service Account: %s" ++ LF)
                   [VStr "appointment-scheduling-bot@rugged-precept-468518-a2.iam.gserviceaccount.com"];
                 Println (LF ++ "🔌 Creating Google Calendar client...")])%list in
      match google_client.NewClient cfg w1 with
      | (_, Some err) =>
          (Ret ((out ++ [LogFatalf "❌ Failed to create client: %v" [VErr err]])%list,
                Exited 1), w1)
      | (None, None) =>
          (Ret ((out ++ [Println "✅ Client created successfully";
                         Println (LF ++ "📅 Testing calendar access...")])%list,
                Exited 2), w1)
      | (Some client, None) =>
          (exercise now client
             (out ++ [Println "✅ Client created successfully";
                      Println (LF ++ "📅 Testing calendar access...")])%list, w1)
      end
  end.

End main.
End connection_test.

(* ===================================================================== *)
(** ** Reference instances for the commands *)
(* ===================================================================== *)

Module civil.
Import rfc3339.

(** Days since 1970-01-01 of a date of the Gregorian calendar, and
    back. *)
Definition daysFromCivil (y m d : Z) : Z :=
  let y := (if m <=? 2 then y - 1 else y)%Z in
  let era := (y / 400)%Z in
  let yoe := (y - era * 400)%Z in
  let doy := ((153 * (if 2 <? m then m - 3 else m + 9) + 2) / 5 + d - 1)%Z in
  let doe := (yoe * 365 + yoe / 4 - yoe / 100 + doy)%Z in
  (era * 146097 + doe - 719468)%Z.

Definition civilFromDays (z : Z) : Z * Z * Z :=
  let z := (z + 719468)%Z in
  let era := (z / 146097)%Z in
  let doe := (z - era * 146097)%Z in
  let yoe := ((doe - doe / 1460 + doe / 36524 - doe / 146096) / 365)%Z in
  let doy := (doe - (365 * yoe + yoe / 4 - yoe / 100))%Z in
  let mp := ((5 * doy + 2) / 153)%Z in
  let d := (doy - (153 * mp + 2) / 5 + 1)%Z in
  let m := (if mp <? 10 then mp + 3 else mp - 9)%Z in
  ((yoe + era * 400 + (if m <=? 2 then 1 else 0))%Z, m, d).

(** The reading a whole number of seconds later, in the same zone. *)
Definition add (t : Instant) (d : Z) : Instant :=
  let secs :=
    (daysFromCivil (Z.of_N (year t)) (Z.of_N (month t)) (Z.of_N (day t)) * 86400
     + Z.of_N (hour t) * 3600 + Z.of_N (minute t) * 60 + Z.of_N (second t)
     + d / 1000000000)%Z in
  let '(y, m, dd) := civilFromDays (secs / 86400) in
  let r := (secs mod 86400)%Z in
  mkInstant (Z.to_N y) (Z.to_N m) (Z.to_N dd) (Z.to_N (r / 3600))
    (Z.to_N ((r mod 3600) / 60)) (Z.to_N (r mod 60)) (zoneMinutes t).

(** The layouts of the commands: a date, a date and time without zone
    (both read as UTC), and a date with hours and minutes for printing. *)
Definition parseLayout (layout value : string) : Result Instant :=
  if String.eqb layout time.RFC3339 then parse value
  else if String.eqb layout "2006-01-02" then parse (value ++ "T00:00:00Z")
  else if String.eqb layout "2006-01-02T15:04:05" then parse (value ++ "Z")
  else Err (ErrParse "parsing time: layout not implemented").

Definition formatLayout (t : Instant) (layout : string) : string :=
  if String.eqb layout time.RFC3339 then format t
  else if String.eqb layout "2006-01-02 15:04" then
    pad2 (year t / 100) ++ pad2 (year t) ++ "-" ++ pad2 (month t) ++ "-"
      ++ pad2 (day t) ++ " " ++ pad2 (hour t) ++ ":" ++ pad2 (minute t)
  else layout.

#[export] Instance api : time.API := {|
  time.Time := Instant;
  time.Format := formatLayout;
  time.Parse := parseLayout
|}.

#[export] Instance arith : @duration.Arith api := {|
  duration.Add := add
|}.

End civil.

Module fixtures.
Import envfile civil.

(** A stand-in for the authentication libraries: a document is accepted
    when it opens with a brace, and a session always comes up. *)
Definition opensWithBrace (creds : list byte) : bool :=
  match creds with
  | b :: _ => Byte.eqb b "{"%byte
  | [] => false
  end.

#[export] Instance auth : googleapis.Auth := {|
  googleapis.JWTConfig := list byte;
  googleapis.HTTPClient := list byte;
  googleapis.JWTConfigFromJSON := fun creds _ =>
    if opensWithBrace creds then Ok creds
    else Err (ErrParse "invalid character looking for beginning of value");
  googleapis.JWTConfig_Client := fun jwtConfig => jwtConfig;
  googleapis.NewService := fun client => Ok (gcal.mkService client)
|}.

(** Production with everything set, the credentials inline. *)
Definition ready : OS :=
  mkOS ∅ (<["APP_ENV" := "production"]>
          (<["GCAL_CALENDAR_ID" := "primary"]>
          (<["GOOGLE_CREDS_JSON" := "{type:service_account}"]> ∅))).

(** Production with the credentials missing. *)
Definition noCreds : OS :=
  mkOS ∅ (<["APP_ENV" := "production"]> (<["GCAL_CALENDAR_ID" := "primary"]> ∅)).

(** Development with a calendar and credentials that are no document. *)
Definition badCreds : OS :=
  mkOS ∅ (<["GCAL_CALENDAR_ID" := "primary"]>
          (<["GOOGLE_CREDS_JSON" := "not a document"]> ∅)).

Definition readyConfig : config.Config :=
  config.mkConfig "production" "8080" "UTC" "primary" "{type:service_account}"
    "" "" "redis://localhost:6379".

Definition readyClient : google.Client :=
  google.mkClient (gcal.mkService sample.serviceAccount) "primary".

Definition noon : time.Time := rfc3339.mkInstant 2024 2 29 12 0 0 0.

(** The flags of a create-event command line. *)
Definition createFlags : gmap string string :=
  <["summary" := "Dentist"]>
  (<["description" := ""]>
  (<["start" := "2024-03-01T09:00:00"]>
  (<["end" := "2024-03-01T10:00:00"]>
  (<["attendee-name" := "Ana"]>
  (<["attendee-email" := "ana@example.com"]>
  (<["location" := ""]>
  (<["timezone" := "UTC"]> ∅))))))).

(** The flags of a list-busy command line. *)
Definition listFlags : gmap string string :=
  <["from" := "2024-03-01"]> (<["to" := "2024-03-02"]> ∅).

(** An in-memory service with nothing in it. *)
Definition empty : fake.State := fake.mkState ∅ ∅ 0.

(** A network on which the port is taken. *)
Definition portTaken (_ : fiber.App) (_ : string) : option error :=
  Some (ErrNew "listen tcp :8080: bind: address already in use").

End fixtures.

(* ===================================================================== *)
(** ** Configuration resolver: properties *)
(* ===================================================================== *)

Module config_facts.
Import config.

Lemma length_pos_iff (s : string) : Nat.ltb 0 (String.length s) = true <-> s ≠ "".
Proof.
  destruct s as [|a s]; simpl.
  - split; [discriminate | congruence].
  - split; [discriminate | reflexivity].
Qed.

Lemma getEnv_default_nonempty (w : OS) (key defaultValue : string) :
  defaultValue ≠ "" -> getEnv w key defaultValue ≠ "".
Proof.
  intros Hd. unfold getEnv. destruct (decide (os.Getenv w key ≠ "")); assumption.
Qed.

Lemma GetGoogleCreds_empty (c : Config) (w : OS) :
  GoogleCredsJSON c = "" -> GetGoogleCreds c w = ([], Some spec.noCredentials).
Proof. intros E. unfold GetGoogleCreds. rewrite E. reflexivity. Qed.

(** The three ways out for a non-empty field, and the fourth. *)
Lemma GetGoogleCreds_nonempty (c : Config) (w : OS) :
  GoogleCredsJSON c ≠ "" ->
  GetGoogleCreds c w =
    match base64.DecodeString (GoogleCredsJSON c) with
    | (decoded, None) => (decoded, None)
    | (_, Some _) =>
        match os.Stat w (GoogleCredsJSON c) with
        | None => os.ReadFile w (GoogleCredsJSON c)
        | Some _ => (list_byte_of_string (GoogleCredsJSON c), None)
        end
    end.
Proof.
  intros Hne. unfold GetGoogleCreds.
  apply length_pos_iff in Hne. rewrite Hne. reflexivity.
Qed.

Section Load.
Context `{DotenvSyntax}.

Lemma Load_config (w : OS) : (Load w).1.1 = spec.resolved (spec.overlaid w).
Proof.
  unfold spec.overlaid, Load. cbv zeta.
  repeat case_decide; reflexivity.
Qed.

Lemma Load_error (w : OS) :
  (Load w).1.2 =
    let cfg := (Load w).1.1 in
    if decide (Env cfg = "production") then
      if decide (GCalCalendarID cfg = "") then
        Some (ErrNew "GCAL_CALENDAR_ID is required in production")
      else if decide (GoogleCredsJSON cfg = "") then
        Some (ErrNew "GOOGLE_CREDS_JSON is required in production")
      else None
    else None.
Proof.
  unfold Load. cbv zeta.
  repeat case_decide; simpl in *; try reflexivity; congruence.
Qed.

End Load.

(** C1, as amended.  For a non-empty credential field: a string that
    decodes under standard base64 gives the decoded bytes, whatever the
    file system holds under that name; otherwise a string that names an
    existing path gives what the read of that path gives, the content of
    the file when the read succeeds and the error of the read when it fails
    (a directory, a file that may not be read); otherwise, when nothing
    exists under that name, the string comes back as its own bytes. *)
Theorem GetGoogleCreds_resolution_order (c : Config) (w : OS) :
  GoogleCredsJSON c ≠ "" ->
  (forall decoded, base64.DecodeString (GoogleCredsJSON c) = (decoded, None) ->
     GetGoogleCreds c w = (decoded, None))
  ∧ (forall content, (base64.DecodeString (GoogleCredsJSON c)).2 ≠ None ->
       os.Stat w (GoogleCredsJSON c) = None ->
       os.ReadFile w (GoogleCredsJSON c) = (content, None) ->
       GetGoogleCreds c w = (content, None))
  ∧ (forall partial err, (base64.DecodeString (GoogleCredsJSON c)).2 ≠ None ->
       os.Stat w (GoogleCredsJSON c) = None ->
       os.ReadFile w (GoogleCredsJSON c) = (partial, Some err) ->
       GetGoogleCreds c w = (partial, Some err))
  ∧ ((base64.DecodeString (GoogleCredsJSON c)).2 ≠ None ->
     os.Stat w (GoogleCredsJSON c) ≠ None ->
     GetGoogleCreds c w = (list_byte_of_string (GoogleCredsJSON c), None))
  ∧ (os.Stat w (GoogleCredsJSON c) = None <-> is_Some (fs w !! GoogleCredsJSON c))
  ∧ (forall content, fs w !! GoogleCredsJSON c = Some (File content) ->
       os.ReadFile w (GoogleCredsJSON c) = (content, None))
  ∧ (forall content, os.ReadFile w (GoogleCredsJSON c) = (content, None) ->
       fs w !! GoogleCredsJSON c = Some (File content)).
Proof.
  intros Hne. rewrite (GetGoogleCreds_nonempty c w Hne).
  split; [|split; [|split; [|split; [|split; [|split]]]]].
  - intros decoded ->. reflexivity.
  - intros content Hd Hstat Hread.
    destruct (base64.DecodeString (GoogleCredsJSON c)) as [d [e|]];
      [|contradiction]. rewrite Hstat. exact Hread.
  - intros partial err Hd Hstat Hread.
    destruct (base64.DecodeString (GoogleCredsJSON c)) as [d [e|]];
      [|contradiction]. rewrite Hstat. exact Hread.
  - intros Hd Hstat.
    destruct (base64.DecodeString (GoogleCredsJSON c)) as [d [e|]];
      [|contradiction].
    destruct (os.Stat w (GoogleCredsJSON c)); [reflexivity | contradiction].
  - unfold os.Stat. destruct (fs w !! GoogleCredsJSON c) as [n|]; split;
      try reflexivity; try discriminate; eauto.
    intros [x Hx]. discriminate.
  - intros content Hf. unfold os.ReadFile. rewrite Hf. reflexivity.
  - intros content. unfold os.ReadFile.
    destruct (fs w !! GoogleCredsJSON c) as [[content'| |partial op reason]|];
      intros [=]. subst. reflexivity.
Qed.

(** The cases on [sample.disk] and [machines.lockedCreds]: "aGk="
    decodes although a file has that name, "creds.json" is read, the
    directory "." and the file that may not be read give the error of the
    read, and an inline document comes back as it is. *)
Lemma GetGoogleCreds_resolution_order_witness :
  GetGoogleCreds (sample.withCreds "aGk=") sample.machine
    = (list_byte_of_string "hi", None)
  ∧ GetGoogleCreds (sample.withCreds "creds.json") sample.machine
    = (sample.serviceAccount, None)
  ∧ GetGoogleCreds (sample.withCreds ".") sample.machine
    = ([], Some (ErrPath "read" "." "is a directory"))
  ∧ GetGoogleCreds (sample.withCreds "locked.json") machines.lockedCreds
    = ([], Some (ErrPath "open" "locked.json" "permission denied"))
  ∧ GetGoogleCreds (sample.withCreds "{inline}") sample.machine
    = (list_byte_of_string "{inline}", None).
Proof.
  split; [|split; [|split; [|split]]].
  - refine (proj1 (GetGoogleCreds_resolution_order (sample.withCreds "aGk=")
                     sample.machine _) _ _); [discriminate | reflexivity].
  - refine (proj1 (proj2 (GetGoogleCreds_resolution_order
                            (sample.withCreds "creds.json") sample.machine _))
              _ _ _ _);
      [discriminate | vm_compute; discriminate | reflexivity | reflexivity].
  - refine (proj1 (proj2 (proj2 (GetGoogleCreds_resolution_order
                                   (sample.withCreds ".") sample.machine _)))
              _ _ _ _ _);
      [discriminate | vm_compute; discriminate | reflexivity | reflexivity].
  - refine (proj1 (proj2 (proj2 (GetGoogleCreds_resolution_order
                                   (sample.withCreds "locked.json")
                                   machines.lockedCreds _)))
              _ _ _ _ _);
      [discriminate | vm_compute; discriminate | reflexivity | reflexivity].
  - refine (proj1 (proj2 (proj2 (proj2 (GetGoogleCreds_resolution_order
                                          (sample.withCreds "{inline}")
                                          sample.machine _)))) _ _);
      [discriminate | vm_compute; discriminate | vm_compute; discriminate].
Defined.

(** C1 as stated fails where the field names a directory: "." is not
    base64 and is no regular file, yet what comes back is the error of
    the read, not the bytes of ".". *)
Lemma GetGoogleCreds_resolution_order_counterexample :
  GoogleCredsJSON (sample.withCreds ".") ≠ ""
  ∧ (base64.DecodeString ".").2 = Some (ErrCorruptInput 0)
  ∧ fs sample.machine !! "." = Some Dir
  ∧ GetGoogleCreds (sample.withCreds ".") sample.machine
    = ([], Some (ErrPath "read" "." "is a directory"))
  ∧ ¬ spec.resolutionOrder (sample.withCreds ".") sample.machine.
Proof.
  split; [discriminate|].
  split; [reflexivity|].
  split; [reflexivity|].
  split; [reflexivity|].
  unfold spec.resolutionOrder. vm_compute. discriminate.
Qed.

(** C7, as amended.  The "no credentials" error comes back exactly when
    the raw field is empty.  A non-empty field gives bytes and no error,
    except when it is not base64 and names something on disk that cannot
    be read as a file: then the error of the read comes back. *)
Theorem GetGoogleCreds_no_credentials_iff_empty (c : Config) (w : OS) :
  ((GetGoogleCreds c w).2 = Some spec.noCredentials <-> GoogleCredsJSON c = "")
  ∧ (GoogleCredsJSON c ≠ "" ->
     spec.returnsBytes c w
     ∨ ((base64.DecodeString (GoogleCredsJSON c)).2 ≠ None
        ∧ os.Stat w (GoogleCredsJSON c) = None
        ∧ GetGoogleCreds c w = os.ReadFile w (GoogleCredsJSON c)
        ∧ exists op reason,
            (os.ReadFile w (GoogleCredsJSON c)).2
              = Some (ErrPath op (GoogleCredsJSON c) reason))).
Proof.
  assert (Hcases : GoogleCredsJSON c ≠ "" ->
     spec.returnsBytes c w
     ∨ ((base64.DecodeString (GoogleCredsJSON c)).2 ≠ None
        ∧ os.Stat w (GoogleCredsJSON c) = None
        ∧ GetGoogleCreds c w = os.ReadFile w (GoogleCredsJSON c)
        ∧ exists op reason,
            (os.ReadFile w (GoogleCredsJSON c)).2
              = Some (ErrPath op (GoogleCredsJSON c) reason))).
  { intros Hne. unfold spec.returnsBytes.
    rewrite (GetGoogleCreds_nonempty c w Hne).
    unfold os.Stat, os.ReadFile.
    destruct (base64.DecodeString (GoogleCredsJSON c)) as [d [e|]]; simpl;
      [|left; eauto].
    destruct (fs w !! GoogleCredsJSON c) as [[content| |partial op reason]|]; simpl;
      [left; eauto | right | right | left; eauto];
      (repeat split; [discriminate | eauto]). }
  split; [split|exact Hcases].
  - intros Herr. destruct (decide (GoogleCredsJSON c = "")) as [E|Hne]; [exact E|].
    exfalso. destruct (Hcases Hne) as [[b Hb]|(_ & _ & Hr & op & reason & He)].
    + rewrite Hb in Herr. discriminate.
    + rewrite Hr, He in Herr. discriminate.
  - intros E. rewrite (GetGoogleCreds_empty c w E). reflexivity.
Qed.

(** C7 as stated fails on the same input: the field "." is not empty
    and no bytes come back for it. *)
Lemma GetGoogleCreds_returns_bytes_counterexample :
  GoogleCredsJSON (sample.withCreds ".") ≠ ""
  ∧ GetGoogleCreds (sample.withCreds ".") sample.machine
    = ([], Some (ErrPath "read" "." "is a directory"))
  ∧ ¬ spec.returnsBytes (sample.withCreds ".") sample.machine.
Proof.
  split; [discriminate|]. split; [reflexivity|].
  intros [b Hb]. vm_compute in Hb. discriminate.
Qed.

Import envfile.

(** [Load] on three machines: nothing set, production with nothing else
    set, and production completed by config.env (whose APP_ENV does not
    replace the one already set). *)
Example Load_runs :
  (Load sample.machine).1
  = (mkConfig "development" "8080" "UTC" "" "" "" "" "redis://localhost:6379", None)
  ∧ (Load sample.bareProduction).1.2
    = Some (ErrNew "GCAL_CALENDAR_ID is required in production")
  ∧ (Load sample.overlaidProduction).1
    = (mkConfig "production" "8080" "UTC" "primary" "creds.json" "" ""
         "redis://localhost:6379", None).
Proof. repeat split; vm_compute; reflexivity. Qed.

End config_facts.


(* ===================================================================== *)
(** ** Calendar adapter: properties *)
(* ===================================================================== *)

Module google_facts.
Import google.

Section adapter.
Context `{time.API}.

(** The loop appends the well-formed intervals to what it has. *)
Lemma fold_busyStep (l : list gcal.TimePeriod) (acc : list calendar.TimeBlock) :
  fold_left busyStep l acc = (acc ++ spec.wellFormedBlocks l)%list.
Proof.
  revert acc. induction l as [|p l IH]; intros acc; simpl.
  - symmetry. apply app_nil_r.
  - rewrite IH. unfold busyStep.
    destruct (time.Parse time.RFC3339 (gcal.TimePeriod_Start p)) as [start|e];
      [|reflexivity].
    destruct (time.Parse time.RFC3339 (gcal.TimePeriod_End p)) as [end_|e];
      [|reflexivity].
    rewrite <- app_assoc. reflexivity.
Qed.

Lemma wellFormedBlocks_app (l1 l2 : list gcal.TimePeriod) :
  spec.wellFormedBlocks (l1 ++ l2)
  = (spec.wellFormedBlocks l1 ++ spec.wellFormedBlocks l2)%list.
Proof.
  induction l1 as [|p l1 IH]; simpl; [reflexivity|].
  destruct (time.Parse time.RFC3339 (gcal.TimePeriod_Start p));
    destruct (time.Parse time.RFC3339 (gcal.TimePeriod_End p));
    rewrite ?IH; reflexivity.
Qed.

Lemma wellFormedBlocks_unparsable (p : gcal.TimePeriod) (l : list gcal.TimePeriod) :
  spec.unparsable p -> spec.wellFormedBlocks (p :: l) = spec.wellFormedBlocks l.
Proof.
  intros Hp. simpl.
  destruct (time.Parse time.RFC3339 (gcal.TimePeriod_Start p)) as [start|e] eqn:Es;
    [|reflexivity].
  destruct (time.Parse time.RFC3339 (gcal.TimePeriod_End p)) as [end_|e] eqn:Ee;
    [|reflexivity].
  exfalso. destruct Hp as [Hp|Hp]; apply Hp; unfold spec.parses; eauto.
Qed.

Lemma wellFormedBlocks_parsable (p : gcal.TimePeriod) (l : list gcal.TimePeriod)
    (start end_ : time.Time) :
  time.Parse time.RFC3339 (gcal.TimePeriod_Start p) = Ok start ->
  time.Parse time.RFC3339 (gcal.TimePeriod_End p) = Ok end_ ->
  spec.wellFormedBlocks (p :: l)
  = calendar.mkTimeBlock start end_ "google_calendar" :: spec.wellFormedBlocks l.
Proof. intros Es Ee. simpl. rewrite Es, Ee. reflexivity. Qed.

Lemma wellFormedBlocks_source (l : list gcal.TimePeriod) :
  Forall (fun b => calendar.TimeBlock_Source b = "google_calendar")
    (spec.wellFormedBlocks l).
Proof.
  induction l as [|p l IH]; simpl; [constructor|].
  destruct (time.Parse time.RFC3339 (gcal.TimePeriod_Start p));
    destruct (time.Parse time.RFC3339 (gcal.TimePeriod_End p));
    try assumption.
  constructor; [reflexivity | assumption].
Qed.

(** What [ListBusy] does with each answer to its query. *)
Lemma run_ListBusy_ok (srv : Remote) (s s1 : RemoteState srv) (from to : time.Time) (c : Client)
    (result : gcal.FreeBusyResponse) :
  answer srv _ (spec.aggregateQuery from to c) s = (Ok result, s1) ->
  run srv (ListBusy from to c) s
  = (((match gcal.FreeBusyResponse_Calendars result !! calendarID c with
        | Some cal => spec.wellFormedBlocks (gcal.FreeBusyCalendar_Busy cal)
        | None => []
        end, None), c), s1, [anyCall (spec.aggregateQuery from to c)]).
Proof.
  intros Ha. unfold ListBusy, bind, this, Do, ret. simpl.
  unfold spec.aggregateQuery in Ha. rewrite Ha. simpl.
  destruct (gcal.FreeBusyResponse_Calendars result !! calendarID c) as [cal|];
    [|reflexivity].
  rewrite fold_busyStep. reflexivity.
Qed.

Lemma run_ListBusy_err (srv : Remote) (s s1 : RemoteState srv) (from to : time.Time) (c : Client)
    (err : error) :
  answer srv _ (spec.aggregateQuery from to c) s = (Err err, s1) ->
  run srv (ListBusy from to c) s
  = ((([], Some (ErrWrap "failed to query free/busy" err)), c), s1,
     [anyCall (spec.aggregateQuery from to c)]).
Proof.
  intros Ha. unfold ListBusy, bind, this, Do, ret. simpl.
  unfold spec.aggregateQuery in Ha. rewrite Ha. reflexivity.
Qed.

Lemma run_ListBusy_calls (srv : Remote) (s : RemoteState srv) (from to : time.Time) (c : Client) :
  (run srv (ListBusy from to c) s).2 = [anyCall (spec.aggregateQuery from to c)].
Proof.
  destruct (answer srv _ (spec.aggregateQuery from to c) s) as [[result|err] s1] eqn:Ha.
  - rewrite (run_ListBusy_ok _ _ _ _ _ _ _ Ha). reflexivity.
  - rewrite (run_ListBusy_err _ _ _ _ _ _ _ Ha). reflexivity.
Qed.

(** C4. When the query succeeds, [ListBusy] does not fail: it returns the
    well-formed busy intervals of the bound calendar in order, each tagged
    "google_calendar".  An interval whose start or end does not parse is
    left out and the scan goes on with the intervals after it; one
    unparsable and one well-formed interval give exactly the one block. *)
Theorem ListBusy_drops_unparsable (srv : Remote) (s s1 : RemoteState srv) (from to : time.Time)
    (c : Client) (result : gcal.FreeBusyResponse) (cal : gcal.FreeBusyCalendar) :
  answer srv _ (spec.aggregateQuery from to c) s = (Ok result, s1) ->
  gcal.FreeBusyResponse_Calendars result !! calendarID c = Some cal ->
  exists blocks,
    (run srv (ListBusy from to c) s).1.1 = ((blocks, None), c)
    ∧ blocks = spec.wellFormedBlocks (gcal.FreeBusyCalendar_Busy cal)
    ∧ Forall (fun b => calendar.TimeBlock_Source b = "google_calendar") blocks
    ∧ (forall l1 bad l2,
         gcal.FreeBusyCalendar_Busy cal = (l1 ++ bad :: l2)%list ->
         spec.unparsable bad ->
         blocks = (spec.wellFormedBlocks l1 ++ spec.wellFormedBlocks l2)%list)
    ∧ (forall bad good start end_,
         spec.unparsable bad ->
         time.Parse time.RFC3339 (gcal.TimePeriod_Start good) = Ok start ->
         time.Parse time.RFC3339 (gcal.TimePeriod_End good) = Ok end_ ->
         gcal.FreeBusyCalendar_Busy cal = [bad; good]
         ∨ gcal.FreeBusyCalendar_Busy cal = [good; bad] ->
         blocks = [calendar.mkTimeBlock start end_ "google_calendar"]).
Proof.
  intros Ha Hcal.
  exists (spec.wellFormedBlocks (gcal.FreeBusyCalendar_Busy cal)).
  split; [rewrite (run_ListBusy_ok _ _ _ _ _ _ _ Ha), Hcal; reflexivity|].
  split; [reflexivity|].
  split; [apply wellFormedBlocks_source|].
  split.
  - intros l1 bad l2 -> Hbad.
    rewrite wellFormedBlocks_app, (wellFormedBlocks_unparsable _ _ Hbad).
    reflexivity.
  - intros bad good start end_ Hbad Es Ee [-> | ->].
    + rewrite (wellFormedBlocks_unparsable _ _ Hbad).
      rewrite (wellFormedBlocks_parsable _ _ _ _ Es Ee). reflexivity.
    + rewrite (wellFormedBlocks_parsable _ _ _ _ Es Ee).
      rewrite (wellFormedBlocks_unparsable _ _ Hbad). reflexivity.
Qed.

(** C6. [ListBusy] issues one call, the free/busy query for the bound
    calendar over the window asked for, and what it returns is read from
    the entry of that calendar alone: two answers that agree on that entry
    give the same result, whatever else they hold. *)
Theorem ListBusy_single_query_own_calendar (srv : Remote) (s : RemoteState srv)
    (from to : time.Time) (c : Client) :
  (run srv (ListBusy from to c) s).2
  = [anyCall (gcal.FreebusyQuery (service c)
       {| gcal.FreeBusyRequest_TimeMin := time.Format from time.RFC3339;
          gcal.FreeBusyRequest_TimeMax := time.Format to time.RFC3339;
          gcal.FreeBusyRequest_Items :=
            [ {| gcal.FreeBusyRequestItem_Id := calendarID c |} ] |})]
  ∧ (forall result s1,
       answer srv _ (spec.aggregateQuery from to c) s = (Ok result, s1) ->
       (run srv (ListBusy from to c) s).1.1
       = ((match gcal.FreeBusyResponse_Calendars result !! calendarID c with
           | Some cal => spec.wellFormedBlocks (gcal.FreeBusyCalendar_Busy cal)
           | None => []
           end, None), c))
  ∧ (forall (srv' : Remote) (s' s1' : RemoteState srv') s1 result result',
       answer srv _ (spec.aggregateQuery from to c) s = (Ok result, s1) ->
       answer srv' _ (spec.aggregateQuery from to c) s' = (Ok result', s1') ->
       gcal.FreeBusyResponse_Calendars result !! calendarID c
       = gcal.FreeBusyResponse_Calendars result' !! calendarID c ->
       (run srv (ListBusy from to c) s).1.1
       = (run srv' (ListBusy from to c) s').1.1).
Proof.
  split; [apply run_ListBusy_calls|].
  split.
  - intros result s1 Ha. rewrite (run_ListBusy_ok _ _ _ _ _ _ _ Ha). reflexivity.
  - intros srv' s' s1' s1 result result' Ha Ha' Hsame.
    rewrite (run_ListBusy_ok _ _ _ _ _ _ _ Ha), (run_ListBusy_ok _ _ _ _ _ _ _ Ha').
    rewrite Hsame. reflexivity.
Qed.

(** C9. When the answer has no entry for the bound calendar, [ListBusy]
    returns no block and no error. *)
Theorem ListBusy_no_entry_is_empty (srv : Remote) (s s1 : RemoteState srv) (from to : time.Time)
    (c : Client) (result : gcal.FreeBusyResponse) :
  answer srv _ (spec.aggregateQuery from to c) s = (Ok result, s1) ->
  gcal.FreeBusyResponse_Calendars result !! calendarID c = None ->
  run srv (ListBusy from to c) s
  = ((([], None), c), s1, [anyCall (spec.aggregateQuery from to c)]).
Proof.
  intros Ha Hnone. rewrite (run_ListBusy_ok _ _ _ _ _ _ _ Ha), Hnone. reflexivity.
Qed.

(** C5. The one call of [CreateEvent] is an insert into the bound
    calendar.  The event it sends has an attendee exactly when the
    attendee email is not empty, and then it has one entry with the email
    and nothing else; the calls issued are the same under any attendee
    name. *)
Theorem CreateEvent_attendee_iff_email (srv : Remote) (s : RemoteState srv)
    (appt : calendar.Appointment) (c : Client) :
  exists payload,
    (run srv (CreateEvent appt c) s).2
    = [anyCall (gcal.EventsInsert (service c) (calendarID c) payload)]
    ∧ (gcal.Event_Attendees payload ≠ [] <->
         calendar.Appointment_AttendeeEmail appt ≠ "")
    ∧ (calendar.Appointment_AttendeeEmail appt ≠ "" ->
       gcal.Event_Attendees payload
       = [ {| gcal.EventAttendee_Email := calendar.Appointment_AttendeeEmail appt;
              gcal.EventAttendee_DisplayName := "";
              gcal.EventAttendee_Comment := "";
              gcal.EventAttendee_ResponseStatus := "";
              gcal.EventAttendee_Optional := false;
              gcal.EventAttendee_Organizer := false |} ])
    ∧ (calendar.Appointment_AttendeeEmail appt = "" ->
       gcal.Event_Attendees payload = [])
    ∧ (forall name,
         (run srv (CreateEvent (spec.withAttendeeName name appt) c) s).2
         = (run srv (CreateEvent appt c) s).2).
Proof.
  unfold CreateEvent, bind, this, Do, ret. simpl.
  destruct (decide (calendar.Appointment_AttendeeEmail appt ≠ "")) as [Hne|He].
  - match goal with
    | |- context [answer srv _ (gcal.EventsInsert _ _ ?ev) s] =>
        exists ev; destruct (answer srv _ (gcal.EventsInsert (service c) (calendarID c) ev) s)
          as [[created|err] s1]
    end; simpl;
      (split; [reflexivity|]; split; [split; [auto | discriminate]|];
       split; [reflexivity|]; split; [congruence | reflexivity]).
  - apply dec_stable in He.
    match goal with
    | |- context [answer srv _ (gcal.EventsInsert _ _ ?ev) s] =>
        exists ev; destruct (answer srv _ (gcal.EventsInsert (service c) (calendarID c) ev) s)
          as [[created|err] s1]
    end; simpl;
      (split; [reflexivity|]; split; [split; [congruence | congruence]|];
       split; [congruence|]; split; reflexivity).
Qed.

(** What [UpdateEvent] does when the fetch fails. *)
Lemma run_UpdateEvent_get_err (srv : Remote) (s s1 : RemoteState srv)
    (eventID : string) (appt : calendar.Appointment) (c : Client) (err : error) :
  answer srv _ (gcal.EventsGet (service c) (calendarID c) eventID) s = (Err err, s1) ->
  run srv (UpdateEvent eventID appt c) s
  = ((Some (ErrWrap "failed to get existing event" err), c), s1,
     [anyCall (gcal.EventsGet (service c) (calendarID c) eventID)]).
Proof.
  intros Hget. unfold UpdateEvent, bind, this, Do, ret. simpl.
  rewrite Hget. reflexivity.
Qed.

(** C3, as amended.  [UpdateEvent] fetches the event first and sends it
    back in an update with summary, description, start, end and location
    set from the Appointment; the attendees are set to the one entry with
    the Appointment's email when that email is not empty and are those of
    the fetched event otherwise; every other field is that of the fetched
    event.  It reports success exactly when the update is accepted. *)
Theorem UpdateEvent_fetch_then_overwrite (srv : Remote) (s s1 : RemoteState srv)
    (eventID : string) (appt : calendar.Appointment) (c : Client)
    (existing : gcal.Event) :
  answer srv _ (gcal.EventsGet (service c) (calendarID c) eventID) s
  = (Ok existing, s1) ->
  exists payload,
    (run srv (UpdateEvent eventID appt c) s).2
    = [anyCall (gcal.EventsGet (service c) (calendarID c) eventID);
       anyCall (gcal.EventsUpdate (service c) (calendarID c) eventID payload)]
    ∧ ((run srv (UpdateEvent eventID appt c) s).1.1 = (None, c) <->
       exists updated,
         (answer srv _ (gcal.EventsUpdate (service c) (calendarID c) eventID payload)
            s1).1 = Ok updated)
    ∧ gcal.Event_Summary payload = calendar.Appointment_Summary appt
    ∧ gcal.Event_Description payload = calendar.Appointment_Description appt
    ∧ gcal.Event_Start payload
      = Some {| gcal.EventDateTime_Date := "";
                gcal.EventDateTime_DateTime :=
                  time.Format (calendar.Appointment_Start appt) time.RFC3339;
                gcal.EventDateTime_TimeZone := calendar.Appointment_Timezone appt |}
    ∧ gcal.Event_End payload
      = Some {| gcal.EventDateTime_Date := "";
                gcal.EventDateTime_DateTime :=
                  time.Format (calendar.Appointment_End appt) time.RFC3339;
                gcal.EventDateTime_TimeZone := calendar.Appointment_Timezone appt |}
    ∧ gcal.Event_Location payload = calendar.Appointment_Location appt
    ∧ (calendar.Appointment_AttendeeEmail appt ≠ "" ->
       gcal.Event_Attendees payload
       = [spec.emailOnly (calendar.Appointment_AttendeeEmail appt)])
    ∧ (calendar.Appointment_AttendeeEmail appt = "" ->
       gcal.Event_Attendees payload = gcal.Event_Attendees existing)
    ∧ spec.sameOtherFields payload existing.
Proof.
  intros Hget. unfold UpdateEvent, bind, this, Do, ret. simpl.
  rewrite Hget. simpl. unfold spec.sameOtherFields.
  destruct (decide (calendar.Appointment_AttendeeEmail appt ≠ "")) as [Hne|He];
    [|apply dec_stable in He];
    match goal with
    | |- context [answer srv _ (gcal.EventsUpdate _ _ _ ?ev) s1] =>
        exists ev;
        destruct (answer srv _ (gcal.EventsUpdate (service c) (calendarID c) eventID ev) s1)
          as [[updated|err] s2]
    end; simpl;
    (split; [reflexivity|]; split;
     [split; [eauto | intros [u Hu]]; try reflexivity; try discriminate|]);
    repeat split; try reflexivity; intros; congruence.
Qed.

(** C8. When the fetch of the event fails, [UpdateEvent] returns that
    error, wrapped; the client it leaves behind is the one it was given,
    with the same calendar identifier and session; the fetch is the only
    call issued, and no update is among the calls. *)
Theorem UpdateEvent_missing_event_no_update (srv : Remote) (s s1 : RemoteState srv)
    (eventID : string) (appt : calendar.Appointment) (c : Client) (err : error) :
  answer srv _ (gcal.EventsGet (service c) (calendarID c) eventID) s = (Err err, s1) ->
  let '(result, c', s', calls) := run srv (UpdateEvent eventID appt c) s in
  result = Some (ErrWrap "failed to get existing event" err)
  ∧ c' = c ∧ calendarID c' = calendarID c ∧ service c' = service c
  ∧ s' = s1
  ∧ calls = [anyCall (gcal.EventsGet (service c) (calendarID c) eventID)]
  ∧ Forall (fun a => spec.isEventsUpdate a = false) calls.
Proof.
  intros Hget. rewrite (run_UpdateEvent_get_err _ _ _ _ _ _ _ Hget).
  repeat split. repeat constructor.
Qed.

End adapter.

Import rfc3339.

(** On [sample.state] the bound calendar has an unparsable and a
    well-formed interval, and another calendar has two more. *)
Lemma ListBusy_drops_unparsable_witness :
  (run fake.remote (ListBusy sample.nine sample.ten sample.client) sample.state).1.1
  = (([calendar.mkTimeBlock sample.nine sample.ten "google_calendar"], None),
     sample.client).
Proof.
  destruct (ListBusy_drops_unparsable fake.remote sample.state sample.state
              sample.nine sample.ten sample.client
              (gcal.mkFreeBusyResponse (fake.busy sample.state))
              (gcal.mkFreeBusyCalendar [sample.bad; sample.good])
              eq_refl eq_refl)
    as (blocks & Hrun & _ & _ & _ & Hone).
  rewrite Hrun.
  rewrite (Hone sample.bad sample.good sample.nine sample.ten); [reflexivity | | | |].
  - left. intros [t Ht]. vm_compute in Ht. discriminate.
  - reflexivity.
  - reflexivity.
  - left. reflexivity.
Defined.

Lemma ListBusy_no_entry_is_empty_witness :
  run fake.remote
    (ListBusy sample.nine sample.ten
       (mkClient (service sample.client) "unlisted")) sample.state
  = ((([], None), mkClient (service sample.client) "unlisted"), sample.state,
     [anyCall (spec.aggregateQuery sample.nine sample.ten
                 (mkClient (service sample.client) "unlisted"))]).
Proof.
  apply (ListBusy_no_entry_is_empty fake.remote sample.state sample.state
           sample.nine sample.ten (mkClient (service sample.client) "unlisted")
           (gcal.mkFreeBusyResponse (fake.busy sample.state))).
  - reflexivity.
  - reflexivity.
Defined.

Lemma UpdateEvent_missing_event_no_update_witness :
  run fake.remote (UpdateEvent "evt404" sample.withGuest sample.client) sample.state
  = ((Some (ErrWrap "failed to get existing event" fake.notFound), sample.client),
     sample.state,
     [anyCall (gcal.EventsGet (service sample.client) "primary" "evt404")]).
Proof.
  pose proof (UpdateEvent_missing_event_no_update fake.remote sample.state
                sample.state "evt404" sample.withGuest sample.client fake.notFound
                eq_refl) as Hrun.
  destruct (run fake.remote (UpdateEvent "evt404" sample.withGuest sample.client)
              sample.state) as [[[result c'] s'] calls].
  destruct Hrun as (-> & -> & _ & _ & -> & -> & _). reflexivity.
Defined.

(** An update of the stored event with an appointment that names a
    guest: the old attendee is replaced, and the fields the Appointment
    does not have stay as they were. *)
Lemma UpdateEvent_fetch_then_overwrite_witness :
  exists payload,
    (run fake.remote (UpdateEvent "evt1" sample.withGuest sample.client)
       sample.state).2
    = [anyCall (gcal.EventsGet (service sample.client) "primary" "evt1");
       anyCall (gcal.EventsUpdate (service sample.client) "primary" "evt1" payload)]
    ∧ (run fake.remote (UpdateEvent "evt1" sample.withGuest sample.client)
         sample.state).1.1 = (None, sample.client)
    ∧ gcal.Event_Summary payload = "New title"
    ∧ gcal.Event_Attendees payload = [spec.emailOnly "new@example.com"]
    ∧ gcal.Event_Status payload = "confirmed"
    ∧ gcal.Event_ExtendedProperties payload
      = gcal.Event_ExtendedProperties sample.stored.
Proof.
  destruct (UpdateEvent_fetch_then_overwrite fake.remote sample.state sample.state
              "evt1" sample.withGuest sample.client sample.stored eq_refl)
    as (payload & Hcalls & Hok & Hsum & _ & _ & _ & _ & Hnew & _ & Hother).
  exists payload. split; [exact Hcalls|].
  split; [reflexivity|].
  split; [exact Hsum|].
  split; [apply Hnew; discriminate|].
  destruct Hother as (_ & Hstatus & _ & _ & _ & _ & _ & _ & Hprops).
  split; [exact Hstatus | exact Hprops].
Defined.

(** C3 as stated fails for an appointment without an attendee email: the
    update succeeds, and the event the service then stores still has the
    attendee of the fetched event, which the Appointment does not name. *)
Lemma UpdateEvent_keeps_attendees_counterexample :
  calendar.Appointment_AttendeeEmail sample.noAttendee = ""
  ∧ (run fake.remote (UpdateEvent "evt1" sample.noAttendee sample.client)
       sample.state).1.1 = (None, sample.client)
  ∧ (gcal.Event_Attendees
       <$> fake.events
             (run fake.remote (UpdateEvent "evt1" sample.noAttendee sample.client)
                sample.state).1.2 !! ("primary", "evt1"))
    = Some [sample.oldAttendee]
  ∧ spec.appointmentAttendees sample.noAttendee = []
  ∧ ¬ spec.updateCarriesAllSix fake.remote.
Proof.
  split; [reflexivity|]. split; [reflexivity|].
  split; [vm_compute; reflexivity|]. split; [reflexivity|].
  intros Hclaim.
  destruct (Hclaim sample.state "evt1" sample.noAttendee sample.client eq_refl)
    as (existing & payload & _ & Hcalls & Hcarry & _).
  destruct Hcarry as (_ & _ & _ & _ & _ & Hatt).
  apply (f_equal (fun calls => spec.sentEvent <$> calls !! 1%nat)) in Hcalls.
  vm_compute in Hcalls. injection Hcalls as <-.
  vm_compute in Hatt. discriminate.
Qed.

(** An appointment without an email sends no attendee, one with an email
    sends the email alone, and the name "New Guest" is not in it. *)
Example CreateEvent_payloads :
  (spec.sentEvent
     <$> (run fake.remote (CreateEvent sample.noAttendee sample.client)
            sample.state).2 !! 0%nat)
  = Some (Some (gcal.mkEvent "" "New title" "New text"
                  (spec.wireTime sample.nine "UTC") (spec.wireTime sample.ten "UTC")
                  "Room 2" [] "" "" "" "" "" [] 0 ∅))
  ∧ (spec.sentEvent
       <$> (run fake.remote (CreateEvent sample.withGuest sample.client)
              sample.state).2 !! 0%nat)
    = Some (Some (gcal.mkEvent "" "New title" "New text"
                    (spec.wireTime sample.nine "UTC") (spec.wireTime sample.ten "UTC")
                    "Room 2" [spec.emailOnly "new@example.com"] "" "" "" "" "" [] 0 ∅)).
Proof. split; reflexivity. Qed.

End google_facts.


(* ===================================================================== *)
(** ** Configuration resolver: the overlay and the environment *)
(* ===================================================================== *)

Module config_more.
Import config.

Lemma OS_eta (w : OS) : mkOS (fs w) (environ w) = w.
Proof. destruct w; reflexivity. Qed.

Lemma Setenv_settable (key value : string) (w : OS) :
  os.Setenv key value w
  = if overlay.settable key value
    then (None, mkOS (fs w) (<[key := value]> (environ w)))
    else (Some (ErrPath "setenv" key "invalid argument"), w).
Proof.
  unfold os.Setenv, overlay.settable.
  destruct (String.eqb key "" || os.hasChar "="%char key || os.hasChar zero key
            || os.hasChar zero value); reflexivity.
Qed.

Section overlay.
Context `{DotenvSyntax}.

(** The loop of [loadFile] over the parsed pairs: the files stay, and a
    name is bound afterwards as it was before, or, when it was not bound,
    as the file binds it, provided the pair is settable. *)
Lemma loadFile_fold (w : OS) (envMap : gmap string string) :
  map_fold (fun key value w' =>
              match environ w !! key with
              | Some _ => w'
              | None => snd (os.Setenv key value w')
              end) w envMap
  = mkOS (fs w)
      (environ w ∪ filter (fun kv => overlay.settable kv.1 kv.2 = true) envMap).
Proof.
  apply (map_fold_weak_ind
           (fun r m => r = mkOS (fs w)
              (environ w ∪ filter (fun kv => overlay.settable kv.1 kv.2 = true) m))).
  - rewrite map_filter_empty, (right_id_L ∅ (∪)). symmetry. apply OS_eta.
  - intros i x m r Hi ->. f_equal.
    destruct (environ w !! i) as [v|] eqn:Hwi.
    + f_equal. apply map_eq. intros k. rewrite !lookup_union.
      destruct (decide (k = i)) as [->|Hk].
      * rewrite Hwi. destruct (filter _ m !! i), (filter _ (<[i:=x]> m) !! i);
          reflexivity.
      * rewrite !map_lookup_filter, lookup_insert_ne by congruence. reflexivity.
    + rewrite Setenv_settable. simpl.
      destruct (overlay.settable i x) eqn:Hs; simpl.
      * f_equal. rewrite map_filter_insert_True by exact Hs.
        apply map_eq. intros k. rewrite lookup_union.
        destruct (decide (k = i)) as [->|Hk].
        -- rewrite !lookup_insert_eq, Hwi. reflexivity.
        -- rewrite !lookup_insert_ne, lookup_union by congruence. reflexivity.
      * f_equal. rewrite map_filter_insert_False by (simpl; congruence).
        rewrite delete_id; [reflexivity | exact Hi].
Qed.

Lemma loadFile_closed (filename : string) (w : OS) :
  snd (godotenv.loadFile filename w)
  = mkOS (fs w) (environ w ∪ overlay.offered w filename).
Proof.
  unfold godotenv.loadFile, overlay.offered.
  destruct (godotenv.readFile filename w) as [envMap|e]; simpl.
  - apply loadFile_fold.
  - rewrite (right_id_L ∅ (∪)). symmetry. apply OS_eta.
Qed.

Lemma godotenv_Load_one (filename : string) (w : OS) :
  snd (godotenv.Load [filename] w)
  = mkOS (fs w) (environ w ∪ overlay.offered w filename).
Proof.
  unfold godotenv.Load. simpl.
  pose proof (loadFile_closed filename w) as Hc.
  destruct (godotenv.loadFile filename w) as [[e|] w']; exact Hc.
Qed.

Lemma godotenv_Load_default (w : OS) :
  snd (godotenv.Load [] w) = mkOS (fs w) (environ w ∪ overlay.offered w ".env").
Proof. apply (godotenv_Load_one ".env"). Qed.

Lemma offered_missing (w : OS) (filename : string) :
  fs w !! filename = None -> overlay.offered w filename = ∅.
Proof.
  intros Hf. unfold overlay.offered, godotenv.readFile, os.ReadFile.
  rewrite Hf. reflexivity.
Qed.

Lemma offered_same_file (w w' : OS) (filename : string) :
  fs w !! filename = fs w' !! filename ->
  overlay.offered w filename = overlay.offered w' filename.
Proof.
  intros Hf. unfold overlay.offered, godotenv.readFile, os.ReadFile.
  rewrite Hf. reflexivity.
Qed.

(** Where [Load] leaves the operating system: the files as they were,
    the environment extended by what the chosen file offers. *)
Lemma Load_closed (w : OS) :
  (Load w).2 = mkOS (fs w) (environ w ∪ overlay.offered w (overlay.chosen w)).
Proof.
  assert (Hw2 : forall r : (Config * option error) * OS,
            r = Load w -> r.2 = mkOS (fs w)
                 (environ w ∪ overlay.offered w (overlay.chosen w))).
  { intros r ->. unfold Load. cbv zeta.
    rewrite godotenv_Load_default.
    unfold overlay.chosen, os.Stat. simpl.
    destruct (fs w !! ".env") as [n|] eqn:Hd; simpl.
    - repeat case_decide; reflexivity.
    - rewrite godotenv_Load_one. simpl.
      rewrite (offered_missing w ".env" Hd), (right_id_L ∅ (∪)).
      rewrite (offered_same_file (mkOS (fs w) (environ w)) w "config.env" eq_refl).
      repeat case_decide; reflexivity. }
  apply Hw2. reflexivity.
Qed.

Lemma Load_pair (w : OS) :
  Load w = ((Load w).1, mkOS (fs w) (environ w ∪ overlay.offered w (overlay.chosen w))).
Proof. rewrite <- Load_closed. destruct (Load w); reflexivity. Qed.

(** The configuration and the error are a function of the environment
    [Load] ends with. *)
Lemma Load_result_of_environment (w w' : OS) :
  environ (Load w).2 = environ (Load w').2 -> (Load w).1 = (Load w').1.
Proof.
  intros Henv.
  assert (Hcfg : (Load w).1.1 = (Load w').1.1).
  { rewrite !config_facts.Load_config. unfold spec.resolved, spec.overlaid, getEnv, os.Getenv.
    rewrite Henv. reflexivity. }
  destruct (Load w).1 as [cfg err] eqn:E, (Load w').1 as [cfg' err'] eqn:E'.
  simpl in Hcfg. subst cfg'. f_equal.
  pose proof (config_facts.Load_error w) as He.
  pose proof (config_facts.Load_error w') as He'.
  rewrite E in He. rewrite E' in He'. simpl in He, He'.
  rewrite He, He'. reflexivity.
Qed.

(** X1.  [Load] leaves every file as it was, and never rebinds or unbinds a
    variable of the process: what it adds are names that were unbound, with
    the values the chosen overlay file gives them. *)
Theorem Load_keeps_process_environment (w : OS) :
  fs (Load w).2 = fs w
  ∧ environ w ⊆ environ (Load w).2
  ∧ (forall key value,
       environ w !! key = None ->
       environ (Load w).2 !! key = Some value ->
       exists envMap,
         godotenv.readFile (overlay.chosen w) w = Ok envMap
         ∧ envMap !! key = Some value).
Proof.
  rewrite Load_closed. simpl.
  split; [reflexivity|]. split; [apply map_union_subseteq_l|].
  intros key value Hnone. rewrite lookup_union, Hnone, (left_id_L None _).
  unfold overlay.offered.
  destruct (godotenv.readFile (overlay.chosen w) w) as [envMap|e].
  - rewrite map_lookup_filter_Some. intros [Hk _]. eauto.
  - rewrite lookup_empty. discriminate.
Qed.

(** X2.  A variable the process has bound is read as the process has it,
    whatever the files say: a bound variable keeps its value, and one bound
    to the empty string gives the default although a file binds it. *)
Theorem Load_process_binding_wins (w : OS) (key value defaultValue : string) :
  environ w !! key = Some value ->
  getEnv (spec.overlaid w) key defaultValue
  = (if decide (value ≠ "") then value else defaultValue).
Proof.
  intros Hk. unfold spec.overlaid. rewrite Load_closed.
  unfold getEnv, os.Getenv. simpl.
  rewrite lookup_union, Hk. simpl.
  destruct (overlay.offered w (overlay.chosen w) !! key); reflexivity.
Qed.

(** X3.  A variable the process has not bound takes the value the chosen file
    gives it, when the pair is one [os.Setenv] accepts. *)
Theorem Load_fills_unbound_from_file (w : OS) (envMap : gmap string string)
    (key value defaultValue : string) :
  environ w !! key = None ->
  godotenv.readFile (overlay.chosen w) w = Ok envMap ->
  envMap !! key = Some value ->
  overlay.settable key value = true ->
  value ≠ "" ->
  getEnv (spec.overlaid w) key defaultValue = value.
Proof.
  intros Hk Hread Hm Hs Hv. unfold spec.overlaid. rewrite Load_closed.
  unfold getEnv, os.Getenv. simpl.
  assert (Ho : overlay.offered w (overlay.chosen w) !! key = Some value).
  { unfold overlay.offered. rewrite Hread.
    apply map_lookup_filter_Some. split; assumption. }
  rewrite lookup_union, Hk, Ho. simpl.
  destruct (decide (value ≠ "")); [reflexivity | contradiction].
Qed.

(** X4.  When something named .env exists, config.env plays no part: two
    machines with the same environment and the same .env get the same
    configuration and the same error. *)
Theorem Load_dotenv_shadows_config_env (w w' : OS) :
  is_Some (fs w !! ".env") ->
  fs w !! ".env" = fs w' !! ".env" ->
  environ w = environ w' ->
  (Load w).1 = (Load w').1 ∧ environ (Load w).2 = environ (Load w').2.
Proof.
  intros [n Hn] Hsame Henv.
  assert (He : environ (Load w).2 = environ (Load w').2).
  { rewrite !Load_closed. simpl. unfold overlay.chosen.
    rewrite <- Hsame, Hn, Henv.
    rewrite (offered_same_file w w' ".env" Hsame). reflexivity. }
  split; [apply Load_result_of_environment; exact He | exact He].
Qed.

(** X5.  With nothing to overlay, [Load] changes nothing and reads the process
    environment as it is.  That is so when neither file exists, and also
    when .env exists but cannot be read or parsed: config.env is then not
    looked at. *)
Theorem Load_without_overlay (w : OS) :
  (fs w !! ".env" = None ∧ fs w !! "config.env" = None)
  ∨ (is_Some (fs w !! ".env")
     ∧ exists e, godotenv.readFile ".env" w = Err e) ->
  (Load w).2 = w ∧ (Load w).1.1 = spec.resolved w.
Proof.
  intros Hcase.
  assert (Hoff : overlay.offered w (overlay.chosen w) = ∅).
  { destruct Hcase as [[Hd Hc]|[[n Hn] [e He]]]; unfold overlay.chosen.
    - rewrite Hd. apply offered_missing. exact Hc.
    - rewrite Hn. unfold overlay.offered. rewrite He. reflexivity. }
  assert (Hw : (Load w).2 = w).
  { rewrite Load_closed, Hoff, (right_id_L ∅ (∪)). apply OS_eta. }
  split; [exact Hw|].
  rewrite config_facts.Load_config. unfold spec.overlaid. rewrite Hw. reflexivity.
Qed.

(** X6.  Loading twice is loading once: on the state the first [Load] leaves,
    a second [Load] returns the same configuration and error and leaves
    the same state. *)
Theorem Load_idempotent (w : OS) :
  Load (Load w).2 = Load w.
Proof.
  assert (Hstate : (Load (Load w).2).2 = (Load w).2).
  { rewrite (Load_closed (Load w).2). rewrite !Load_closed. simpl.
    assert (Hch : overlay.chosen
                    (mkOS (fs w) (environ w ∪ overlay.offered w (overlay.chosen w)))
                  = overlay.chosen w) by reflexivity.
    rewrite Hch.
    change (overlay.offered
              (mkOS (fs w) (environ w ∪ overlay.offered w (overlay.chosen w)))
              (overlay.chosen w))
      with (overlay.offered w (overlay.chosen w)).
    f_equal. rewrite <- (assoc_L (∪)), (idemp_L (∪)). reflexivity. }
  assert (Hres : (Load (Load w).2).1 = (Load w).1).
  { apply Load_result_of_environment. rewrite Hstate. reflexivity. }
  destruct (Load (Load w).2) as [r1 s1], (Load w) as [r2 s2].
  simpl in *. congruence.
Qed.

End overlay.

Import envfile.

(** On [machines.twoFiles] the process exports HTTP_PORT=3000 and an
    empty GCAL_CALENDAR_ID, and .env binds both. *)
Lemma Load_process_binding_wins_witness :
  getEnv (spec.overlaid machines.twoFiles) "HTTP_PORT" "8080" = "3000"
  ∧ getEnv (spec.overlaid machines.twoFiles) "GCAL_CALENDAR_ID" "none" = "none".
Proof.
  split.
  - exact (Load_process_binding_wins machines.twoFiles "HTTP_PORT" "3000" "8080"
             eq_refl).
  - exact (Load_process_binding_wins machines.twoFiles "GCAL_CALENDAR_ID" "" "none"
             eq_refl).
Defined.

Lemma Load_fills_unbound_from_file_witness :
  getEnv (spec.overlaid machines.twoFiles) "TZ" "UTC" = "Europe/Lisbon".
Proof.
  apply (Load_fills_unbound_from_file machines.twoFiles
           (<["GCAL_CALENDAR_ID" := "from-dotenv"]>
              (<["TZ" := "Europe/Lisbon"]> (<["HTTP_PORT" := "9000"]> ∅)))).
  - reflexivity.
  - vm_compute. reflexivity.
  - reflexivity.
  - reflexivity.
  - discriminate.
Defined.

Lemma Load_dotenv_shadows_config_env_witness :
  (Load machines.twoFiles).1
  = (Load (mkOS (delete "config.env" (fs machines.twoFiles))
             (environ machines.twoFiles))).1
  ∧ environ (Load machines.twoFiles).2
    = environ (Load (mkOS (delete "config.env" (fs machines.twoFiles))
                       (environ machines.twoFiles))).2.
Proof.
  apply (Load_dotenv_shadows_config_env machines.twoFiles
           (mkOS (delete "config.env" (fs machines.twoFiles))
              (environ machines.twoFiles))).
  - vm_compute. eauto.
  - vm_compute. reflexivity.
  - reflexivity.
Defined.

Lemma Load_without_overlay_witness :
  ((Load machines.noFiles).2 = machines.noFiles
   ∧ (Load machines.noFiles).1.1 = spec.resolved machines.noFiles)
  ∧ ((Load machines.brokenDotenv).2 = machines.brokenDotenv
     ∧ (Load machines.brokenDotenv).1.1 = spec.resolved machines.brokenDotenv).
Proof.
  split.
  - apply (Load_without_overlay machines.noFiles). left. split; reflexivity.
  - apply (Load_without_overlay machines.brokenDotenv). right.
    split; [vm_compute; eauto|].
    exists (ErrPath "read" ".env" "is a directory"). reflexivity.
Defined.

(** What [Load] makes of the machines above. *)
Example Load_overlay_runs :
  (Load machines.twoFiles).1
  = (mkConfig "development" "3000" "Europe/Lisbon" "" "" "" ""
       "redis://localhost:6379", None)
  ∧ (Load machines.onlyConfigEnv).1
    = (mkConfig "development" "8080" "Asia/Tokyo" "" "" "" ""
         "redis://localhost:6379", None)
  ∧ (Load machines.brokenDotenv).1
    = (mkConfig "staging" "8080" "UTC" "" "" "" "" "redis://localhost:6379", None).
Proof. repeat split; vm_compute; reflexivity. Qed.

(** A string whose first character is neither in the base64 alphabet nor
    a line break does not decode. *)
Lemma DecodeString_foreign_first (ch : ascii) (rest : string) :
  base64.decodeMap ch = None ->
  base64.isNewline ch = false ->
  (base64.DecodeString (String ch rest)).2 ≠ None.
Proof.
  intros Hm Hn. unfold base64.DecodeString. simpl. rewrite Hn.
  destruct (base64.stripNewlines rest) as [|b [|p [|q [|x l]]]];
    simpl; rewrite ?Hm; discriminate.
Qed.

(** X7.  Credential text that starts with a character foreign to base64, as
    a JSON document does with its brace, comes back byte for byte when
    nothing on disk has that text as its name. *)
Theorem GetGoogleCreds_inline_text_verbatim (c : Config) (w : OS)
    (ch : ascii) (rest : string) :
  GoogleCredsJSON c = String ch rest ->
  base64.decodeMap ch = None ->
  base64.isNewline ch = false ->
  fs w !! GoogleCredsJSON c = None ->
  GetGoogleCreds c w = (list_byte_of_string (GoogleCredsJSON c), None).
Proof.
  intros Hs Hm Hn Hf.
  assert (Hne : GoogleCredsJSON c ≠ "") by (rewrite Hs; discriminate).
  rewrite (config_facts.GetGoogleCreds_nonempty c w Hne).
  pose proof (DecodeString_foreign_first ch rest Hm Hn) as Hd.
  rewrite <- Hs in Hd.
  destruct (base64.DecodeString (GoogleCredsJSON c)) as [d [e|]];
    [|contradiction].
  unfold os.Stat. rewrite Hf. reflexivity.
Qed.

Lemma GetGoogleCreds_inline_text_verbatim_witness :
  GetGoogleCreds (sample.withCreds "{type:service_account}") sample.machine
  = (sample.serviceAccount, None).
Proof.
  apply (GetGoogleCreds_inline_text_verbatim
           (sample.withCreds "{type:service_account}") sample.machine
           "{"%char "type:service_account}");
    reflexivity.
Defined.

(** X9.  [GetGoogleCreds] looks at nothing but the field and what the disk has
    under the field as a name: environment variables and other files do
    not matter. *)
Theorem GetGoogleCreds_reads_only_named_path (c : Config) (w w' : OS) :
  fs w !! GoogleCredsJSON c = fs w' !! GoogleCredsJSON c ->
  GetGoogleCreds c w = GetGoogleCreds c w'.
Proof.
  intros Hf. unfold GetGoogleCreds, os.Stat, os.ReadFile. rewrite Hf. reflexivity.
Qed.

Lemma GetGoogleCreds_reads_only_named_path_witness :
  GetGoogleCreds (sample.withCreds "creds.json") sample.machine
  = GetGoogleCreds (sample.withCreds "creds.json") sample.bareProduction.
Proof.
  apply (GetGoogleCreds_reads_only_named_path (sample.withCreds "creds.json")
           sample.machine sample.bareProduction).
  reflexivity.
Defined.

(** No character of the alphabet is a line break. *)
Lemma alphabet_not_newline (ch : ascii) :
  is_Some (base64.decodeMap ch) -> base64.isNewline ch = false.
Proof.
  unfold base64.decodeMap, base64.isNewline. cbv zeta.
  generalize (N_of_ascii ch). intros n [x Hx].
  destruct (n =? 10)%N eqn:E10; [apply N.eqb_eq in E10; subst n; discriminate|].
  destruct (n =? 13)%N eqn:E13; [apply N.eqb_eq in E13; subst n; discriminate|].
  reflexivity.
Qed.

Lemma stripNewlines_alphabet (s : string) :
  Forall (fun ch => is_Some (base64.decodeMap ch)) (list_ascii_of_string s) ->
  base64.stripNewlines s = list_ascii_of_string s.
Proof.
  induction s as [|ch s IH]; simpl; [reflexivity|].
  intros Hall. inversion Hall as [|? ? Hch Hrest]; subst.
  rewrite (alphabet_not_newline ch Hch), (IH Hrest). reflexivity.
Qed.

Lemma length_list_ascii (s : string) :
  length (list_ascii_of_string s) = String.length s.
Proof. induction s as [|ch s IH]; simpl; [reflexivity | rewrite IH; reflexivity]. Qed.

Lemma decodeQuanta_step (a b c d e : ascii) (rest : list ascii) :
  base64.decodeQuanta (a :: b :: c :: d :: e :: rest)
  = match base64.decodeMap a, base64.decodeMap b, base64.decodeMap c,
          base64.decodeMap d with
    | Some x, Some y, Some z, Some w =>
        let v := base64.assemble x y z w in
        match base64.decodeQuanta (e :: rest) with
        | Some out =>
            Some (base64.byteOf (N.shiftr v 16) :: base64.byteOf (N.shiftr v 8)
                    :: base64.byteOf v :: out)
        | None => None
        end
    | _, _, _, _ => None
    end.
Proof. reflexivity. Qed.

(** Whole quanta of alphabet characters always decode, three bytes for
    every four characters. *)
Lemma decodeQuanta_full (n : nat) (l : list ascii) :
  length l = 4 * n ->
  Forall (fun ch => is_Some (base64.decodeMap ch)) l ->
  exists out, base64.decodeQuanta l = Some out ∧ length out = 3 * n.
Proof.
  revert l. induction n as [|n IH]; intros l Hlen Hall.
  - destruct l; [|discriminate]. exists []. split; reflexivity.
  - destruct l as [|a [|b [|c [|d rest]]]]; simpl in Hlen; try lia.
    inversion Hall as [|? ? [x Hx] Hall1]; subst.
    inversion Hall1 as [|? ? [y Hy] Hall2]; subst.
    inversion Hall2 as [|? ? [z Hz] Hall3]; subst.
    inversion Hall3 as [|? ? [v Hv] Hall4]; subst.
    destruct rest as [|e rest].
    + exists [base64.byteOf (N.shiftr (base64.assemble x y z v) 16);
              base64.byteOf (N.shiftr (base64.assemble x y z v) 8);
              base64.byteOf (base64.assemble x y z v)].
      split; [|simpl in *; lia].
      cbn [base64.decodeQuanta]. rewrite Hx, Hy, Hz, Hv. reflexivity.
    + destruct (IH (e :: rest)) as (out & Hout & Hlo);
        [simpl in *; lia | exact Hall4 |].
      eexists. rewrite decodeQuanta_step, Hx, Hy, Hz, Hv. cbv zeta.
      rewrite Hout. split; [reflexivity|]. simpl. lia.
Qed.

(** X8.  Text made of base64 alphabet characters only, in whole groups of
    four, is always taken for base64: three bytes come back for every four
    characters, and the disk is not consulted, whether or not a file has
    that name. *)
Theorem GetGoogleCreds_alphabet_text_is_decoded (c : Config) (n : nat) :
  GoogleCredsJSON c ≠ "" ->
  Forall (fun ch => is_Some (base64.decodeMap ch))
    (list_ascii_of_string (GoogleCredsJSON c)) ->
  String.length (GoogleCredsJSON c) = 4 * n ->
  exists decoded,
    length decoded = 3 * n ∧ forall w, GetGoogleCreds c w = (decoded, None).
Proof.
  intros Hne Hall Hlen.
  destruct (decodeQuanta_full n (list_ascii_of_string (GoogleCredsJSON c)))
    as (out & Hout & Hlo); [rewrite length_list_ascii; exact Hlen | exact Hall |].
  exists out. split; [exact Hlo|]. intros w.
  rewrite (config_facts.GetGoogleCreds_nonempty c w Hne).
  unfold base64.DecodeString. rewrite (stripNewlines_alphabet _ Hall), Hout.
  reflexivity.
Qed.

(** The path /etc/ssl/key is twelve alphabet characters: nine bytes come
    back for it on every machine. *)
Lemma GetGoogleCreds_alphabet_text_is_decoded_witness :
  exists decoded,
    length decoded = 9
    ∧ forall w, GetGoogleCreds (sample.withCreds "/etc/ssl/key") w = (decoded, None).
Proof.
  apply (GetGoogleCreds_alphabet_text_is_decoded (sample.withCreds "/etc/ssl/key") 3).
  - discriminate.
  - repeat (constructor; [vm_compute; eauto|]). constructor.
  - reflexivity.
Defined.

End config_more.

(* ===================================================================== *)
(** ** Calendar adapter: results, failures and composition *)
(* ===================================================================== *)

Module google_more.
Import google.

Section adapter.
Context `{time.API}.

Lemma wellFormedBlocks_length (l : list gcal.TimePeriod) :
  length (spec.wellFormedBlocks l) <= length l.
Proof.
  induction l as [|p l IH]; simpl; [lia|].
  destruct (time.Parse time.RFC3339 (gcal.TimePeriod_Start p));
    destruct (time.Parse time.RFC3339 (gcal.TimePeriod_End p)); simpl; lia.
Qed.

Lemma wellFormedBlocks_all (l : list gcal.TimePeriod) :
  Forall (fun p => spec.parses (gcal.TimePeriod_Start p)
                   ∧ spec.parses (gcal.TimePeriod_End p)) l ->
  length (spec.wellFormedBlocks l) = length l.
Proof.
  induction 1 as [|p l [[start Hs] [end_ He]] _ IH]; simpl; [reflexivity|].
  rewrite Hs, He. simpl. rewrite IH. reflexivity.
Qed.

(** X10.  When the free/busy query fails, [ListBusy] returns no block and the
    error of the query, wrapped; the query is the only call, and the remote
    side is left as the query left it. *)
Theorem ListBusy_query_failure (srv : Remote) (s s1 : RemoteState srv)
    (from to : time.Time) (c : Client) (err : error) :
  answer srv _ (spec.aggregateQuery from to c) s = (Err err, s1) ->
  run srv (ListBusy from to c) s
  = ((([], Some (ErrWrap "failed to query free/busy" err)), c), s1,
     [anyCall (spec.aggregateQuery from to c)]).
Proof. apply google_facts.run_ListBusy_err. Qed.

(** X11.  [ListBusy] returns at most one block per busy interval of the bound
    calendar, and exactly one per interval when every start and end
    parses. *)
Theorem ListBusy_block_count (srv : Remote) (s s1 : RemoteState srv)
    (from to : time.Time) (c : Client) (result : gcal.FreeBusyResponse)
    (cal : gcal.FreeBusyCalendar) :
  answer srv _ (spec.aggregateQuery from to c) s = (Ok result, s1) ->
  gcal.FreeBusyResponse_Calendars result !! calendarID c = Some cal ->
  length (run srv (ListBusy from to c) s).1.1.1.1
    <= length (gcal.FreeBusyCalendar_Busy cal)
  ∧ (Forall (fun p => spec.parses (gcal.TimePeriod_Start p)
                      ∧ spec.parses (gcal.TimePeriod_End p))
       (gcal.FreeBusyCalendar_Busy cal) ->
     length (run srv (ListBusy from to c) s).1.1.1.1
     = length (gcal.FreeBusyCalendar_Busy cal)).
Proof.
  intros Ha Hcal. rewrite (google_facts.run_ListBusy_ok _ _ _ _ _ _ _ Ha), Hcal.
  simpl. split; [apply wellFormedBlocks_length | apply wellFormedBlocks_all].
Qed.

(** What [CreateEvent] sends and returns, against any remote side. *)
Lemma run_CreateEvent (srv : Remote) (s : RemoteState srv)
    (appt : calendar.Appointment) (c : Client) :
  let payload :=
    gcal.mkEvent "" (calendar.Appointment_Summary appt)
      (calendar.Appointment_Description appt)
      (spec.wireTime (calendar.Appointment_Start appt)
         (calendar.Appointment_Timezone appt))
      (spec.wireTime (calendar.Appointment_End appt)
         (calendar.Appointment_Timezone appt))
      (calendar.Appointment_Location appt) (spec.appointmentAttendees appt)
      "" "" "" "" "" [] 0 ∅ in
  let insert := gcal.EventsInsert (service c) (calendarID c) payload in
  run srv (CreateEvent appt c) s
  = ((match (answer srv _ insert s).1 with
      | Ok createdEvent => (gcal.Event_Id createdEvent, None)
      | Err err => ("", Some (ErrWrap "failed to create calendar event" err))
      end, c), (answer srv _ insert s).2, [anyCall insert]).
Proof.
  cbv zeta. unfold CreateEvent, bind, this, Do, ret, spec.appointmentAttendees.
  simpl.
  destruct (decide (calendar.Appointment_AttendeeEmail appt ≠ "")) as [Hne|He];
    [destruct (decide (calendar.Appointment_AttendeeEmail appt = ""));
       [contradiction|]
    |destruct (decide (calendar.Appointment_AttendeeEmail appt = ""));
       [|contradiction]];
    unfold gcal.Event_setAttendees, spec.emailOnly, spec.wireTime; simpl;
    match goal with
    | |- context [answer srv _ ?e s] =>
        destruct (answer srv _ e s) as [[createdEvent|err] s1]
    end; reflexivity.
Qed.

Lemma run_DeleteEvent (srv : Remote) (s : RemoteState srv)
    (eventID : string) (c : Client) :
  let delete := gcal.EventsDelete (service c) (calendarID c) eventID in
  run srv (DeleteEvent eventID c) s
  = ((match (answer srv _ delete s).1 with
      | None => None
      | Some err => Some (ErrWrap "failed to delete calendar event" err)
      end, c), (answer srv _ delete s).2, [anyCall delete]).
Proof.
  cbv zeta. unfold DeleteEvent, bind, this, Do, ret. simpl.
  destruct (answer srv _ (gcal.EventsDelete (service c) (calendarID c) eventID) s)
    as [[err|] s1]; reflexivity.
Qed.

(** What [UpdateEvent] sends after a successful fetch. *)
Lemma run_UpdateEvent_calls (srv : Remote) (s s1 : RemoteState srv)
    (eventID : string) (appt : calendar.Appointment) (c : Client)
    (existing : gcal.Event) :
  answer srv _ (gcal.EventsGet (service c) (calendarID c) eventID) s
  = (Ok existing, s1) ->
  let payload :=
    gcal.mkEvent (gcal.Event_Id existing) (calendar.Appointment_Summary appt)
      (calendar.Appointment_Description appt)
      (spec.wireTime (calendar.Appointment_Start appt)
         (calendar.Appointment_Timezone appt))
      (spec.wireTime (calendar.Appointment_End appt)
         (calendar.Appointment_Timezone appt))
      (calendar.Appointment_Location appt)
      (if decide (calendar.Appointment_AttendeeEmail appt = "")
       then gcal.Event_Attendees existing
       else spec.appointmentAttendees appt)
      (gcal.Event_Status existing) (gcal.Event_Etag existing)
      (gcal.Event_HtmlLink existing) (gcal.Event_ColorId existing)
      (gcal.Event_Visibility existing) (gcal.Event_Recurrence existing)
      (gcal.Event_Sequence existing) (gcal.Event_ExtendedProperties existing) in
  let update := gcal.EventsUpdate (service c) (calendarID c) eventID payload in
  run srv (UpdateEvent eventID appt c) s
  = ((match (answer srv _ update s1).1 with
      | Ok _ => None
      | Err err => Some (ErrWrap "failed to update calendar event" err)
      end, c), (answer srv _ update s1).2,
     [anyCall (gcal.EventsGet (service c) (calendarID c) eventID); anyCall update]).
Proof.
  intros Hget. cbv zeta.
  unfold UpdateEvent, bind, this, Do, ret, spec.appointmentAttendees.
  simpl. rewrite Hget. simpl.
  destruct (decide (calendar.Appointment_AttendeeEmail appt ≠ "")) as [Hne|He];
    [destruct (decide (calendar.Appointment_AttendeeEmail appt = ""));
       [contradiction|]
    |destruct (decide (calendar.Appointment_AttendeeEmail appt = ""));
       [|contradiction]];
    match goal with
    | |- _ = (match (answer srv _ (gcal.EventsUpdate _ _ _ ?p) s1).1 with
              | Ok _ => _
              | Err _ => _
              end, _, _, _) =>
        match goal with
        | |- context [gcal.EventsUpdate _ _ _ (gcal.Event_setAttendees ?a ?e')] =>
            change (gcal.Event_setAttendees a e') with p
        | |- context [gcal.EventsUpdate _ _ _ (gcal.Event_setLocation ?a ?e')] =>
            change (gcal.Event_setLocation a e') with p
        end;
        destruct (answer srv _ (gcal.EventsUpdate (service c) (calendarID c) eventID p) s1)
          as [[updated|err] s2]
    end; reflexivity.
Qed.

(** X12.  [CreateEvent] sends an event that carries the Appointment: summary,
    description and location, start and end in the wire format with the
    Appointment's timezone on both, the attendees the Appointment stands
    for; every other field of the event is empty.  It returns the
    identifier the remote side reports, or the empty string and the wrapped
    error when the insert fails. *)
Theorem CreateEvent_payload_and_result (srv : Remote) (s : RemoteState srv)
    (appt : calendar.Appointment) (c : Client) :
  exists payload,
    (run srv (CreateEvent appt c) s).2
    = [anyCall (gcal.EventsInsert (service c) (calendarID c) payload)]
    ∧ spec.carriesAppointment payload appt
    ∧ spec.sameOtherFields payload
        (gcal.mkEvent "" "" "" None None "" [] "" "" "" "" "" [] 0 ∅)
    ∧ (forall createdEvent s1,
         answer srv _ (gcal.EventsInsert (service c) (calendarID c) payload) s
         = (Ok createdEvent, s1) ->
         (run srv (CreateEvent appt c) s).1.1.1 = (gcal.Event_Id createdEvent, None))
    ∧ (forall err s1,
         answer srv _ (gcal.EventsInsert (service c) (calendarID c) payload) s
         = (Err err, s1) ->
         (run srv (CreateEvent appt c) s).1.1.1
         = ("", Some (ErrWrap "failed to create calendar event" err))).
Proof.
  pose proof (run_CreateEvent srv s appt c) as Hrun. cbv zeta in Hrun.
  eexists. rewrite Hrun. split; [reflexivity|].
  split; [repeat split|]. split; [repeat split|].
  split; intros x s1 Ha; rewrite Ha; reflexivity.
Qed.

(** X13.  When the fetch succeeds and the update is refused, [UpdateEvent]
    returns the error of the update, wrapped; the calls are the fetch and
    the update, and the remote side is left as the update left it. *)
Theorem UpdateEvent_rejected (srv : Remote) (s s1 : RemoteState srv)
    (eventID : string) (appt : calendar.Appointment) (c : Client)
    (existing : gcal.Event) :
  answer srv _ (gcal.EventsGet (service c) (calendarID c) eventID) s
  = (Ok existing, s1) ->
  exists payload,
    (run srv (UpdateEvent eventID appt c) s).2
    = [anyCall (gcal.EventsGet (service c) (calendarID c) eventID);
       anyCall (gcal.EventsUpdate (service c) (calendarID c) eventID payload)]
    ∧ forall err s2,
        answer srv _ (gcal.EventsUpdate (service c) (calendarID c) eventID payload) s1
        = (Err err, s2) ->
        (run srv (UpdateEvent eventID appt c) s).1
        = ((Some (ErrWrap "failed to update calendar event" err), c), s2).
Proof.
  intros Hget.
  pose proof (run_UpdateEvent_calls srv s s1 eventID appt c existing Hget) as Hrun.
  cbv zeta in Hrun. eexists. rewrite Hrun. split; [reflexivity|].
  intros err s2 Ha. rewrite Ha. reflexivity.
Qed.

(** X14.  Sending the same update again changes nothing: when the fetch gives
    back the event an update has sent, the update of it with the same
    Appointment sends that very event. *)
Theorem UpdateEvent_payload_idempotent (srv : Remote) (s s1 : RemoteState srv)
    (eventID : string) (appt : calendar.Appointment) (c : Client)
    (existing : gcal.Event) :
  answer srv _ (gcal.EventsGet (service c) (calendarID c) eventID) s
  = (Ok existing, s1) ->
  exists payload,
    (run srv (UpdateEvent eventID appt c) s).2
    = [anyCall (gcal.EventsGet (service c) (calendarID c) eventID);
       anyCall (gcal.EventsUpdate (service c) (calendarID c) eventID payload)]
    ∧ forall (srv' : Remote) (t t1 : RemoteState srv'),
        answer srv' _ (gcal.EventsGet (service c) (calendarID c) eventID) t
        = (Ok payload, t1) ->
        (run srv' (UpdateEvent eventID appt c) t).2
        = [anyCall (gcal.EventsGet (service c) (calendarID c) eventID);
           anyCall (gcal.EventsUpdate (service c) (calendarID c) eventID payload)].
Proof.
  intros Hget.
  pose proof (run_UpdateEvent_calls srv s s1 eventID appt c existing Hget) as Hrun.
  cbv zeta in Hrun. eexists. rewrite Hrun. split; [reflexivity|].
  intros srv' t t1 Hget'.
  pose proof (run_UpdateEvent_calls srv' t t1 eventID appt c _ Hget') as Hrun'.
  cbv zeta in Hrun'. rewrite Hrun'. simpl.
  unfold spec.appointmentAttendees.
  destruct (decide (calendar.Appointment_AttendeeEmail appt = "")); reflexivity.
Qed.

(** X15.  An event updated with the Appointment it was created from is sent
    back unchanged: when the fetch gives the event [CreateEvent] sent,
    under the identifier the remote side gave it, [UpdateEvent] with the
    same Appointment sends that event. *)
Theorem UpdateEvent_after_CreateEvent (srv : Remote) (s : RemoteState srv)
    (appt : calendar.Appointment) (c : Client) :
  exists payload,
    (run srv (CreateEvent appt c) s).2
    = [anyCall (gcal.EventsInsert (service c) (calendarID c) payload)]
    ∧ forall (srv' : Remote) (t t1 : RemoteState srv') (eventID : string),
        answer srv' _ (gcal.EventsGet (service c) (calendarID c) eventID) t
        = (Ok (gcal.Event_setId eventID payload), t1) ->
        (run srv' (UpdateEvent eventID appt c) t).2
        = [anyCall (gcal.EventsGet (service c) (calendarID c) eventID);
           anyCall (gcal.EventsUpdate (service c) (calendarID c) eventID
                      (gcal.Event_setId eventID payload))].
Proof.
  pose proof (run_CreateEvent srv s appt c) as Hrun. cbv zeta in Hrun.
  eexists. rewrite Hrun. split; [reflexivity|].
  intros srv' t t1 eventID Hget'.
  pose proof (run_UpdateEvent_calls srv' t t1 eventID appt c _ Hget') as Hrun'.
  cbv zeta in Hrun'. rewrite Hrun'. simpl.
  unfold spec.appointmentAttendees, gcal.Event_setId. simpl.
  destruct (decide (calendar.Appointment_AttendeeEmail appt = "")); reflexivity.
Qed.

(** X16.  [DeleteEvent] issues one call, the delete of the event in the bound
    calendar; it returns nil exactly when the remote side accepts it, and
    the wrapped error otherwise. *)
Theorem DeleteEvent_single_call (srv : Remote) (s : RemoteState srv)
    (eventID : string) (c : Client) :
  (run srv (DeleteEvent eventID c) s).2
  = [anyCall (gcal.EventsDelete (service c) (calendarID c) eventID)]
  ∧ (run srv (DeleteEvent eventID c) s).1.2
    = (answer srv _ (gcal.EventsDelete (service c) (calendarID c) eventID) s).2
  ∧ ((run srv (DeleteEvent eventID c) s).1.1.1 = None <->
     (answer srv _ (gcal.EventsDelete (service c) (calendarID c) eventID) s).1 = None)
  ∧ (forall err,
       (answer srv _ (gcal.EventsDelete (service c) (calendarID c) eventID) s).1
       = Some err ->
       (run srv (DeleteEvent eventID c) s).1.1.1
       = Some (ErrWrap "failed to delete calendar event" err)).
Proof.
  pose proof (run_DeleteEvent srv s eventID c) as Hrun. cbv zeta in Hrun.
  rewrite Hrun. simpl.
  destruct (answer srv _ (gcal.EventsDelete (service c) (calendarID c) eventID) s)
    as [[err|] s1]; simpl;
    (split; [reflexivity|]; split; [reflexivity|]; split;
     [split; congruence | intros ? [= <-] || intros ? [=]]; reflexivity).
Qed.

(** X17.  No method changes the client it runs on, whatever the remote side
    answers: the calendar identifier and the session stay. *)
Theorem methods_keep_client (srv : Remote) (s : RemoteState srv) (c : Client)
    (from to : time.Time) (appt : calendar.Appointment) (eventID : string) :
  (run srv (ListBusy from to c) s).1.1.2 = c
  ∧ (run srv (CreateEvent appt c) s).1.1.2 = c
  ∧ (run srv (UpdateEvent eventID appt c) s).1.1.2 = c
  ∧ (run srv (DeleteEvent eventID c) s).1.1.2 = c.
Proof.
  split; [|split; [|split]].
  - destruct (answer srv _ (spec.aggregateQuery from to c) s) as [[result|err] s1] eqn:Ha.
    + rewrite (google_facts.run_ListBusy_ok _ _ _ _ _ _ _ Ha). reflexivity.
    + rewrite (google_facts.run_ListBusy_err _ _ _ _ _ _ _ Ha). reflexivity.
  - pose proof (run_CreateEvent srv s appt c) as Hrun. cbv zeta in Hrun.
    rewrite Hrun. reflexivity.
  - destruct (answer srv _ (gcal.EventsGet (service c) (calendarID c) eventID) s)
      as [[existing|err] s1] eqn:Hget.
    + pose proof (run_UpdateEvent_calls srv s s1 eventID appt c existing Hget) as Hrun.
      cbv zeta in Hrun. rewrite Hrun. reflexivity.
    + rewrite (google_facts.run_UpdateEvent_get_err _ _ _ _ _ _ _ Hget). reflexivity.
  - pose proof (run_DeleteEvent srv s eventID c) as Hrun. cbv zeta in Hrun.
    rewrite Hrun. reflexivity.
Qed.

End adapter.

Import rfc3339.

Lemma ListBusy_query_failure_witness :
  run doubles.down (ListBusy sample.nine sample.ten sample.client) tt
  = ((([], Some (ErrWrap "failed to query free/busy" doubles.unavailable)),
      sample.client), tt,
     [anyCall (spec.aggregateQuery sample.nine sample.ten sample.client)]).
Proof.
  apply (ListBusy_query_failure doubles.down tt tt sample.nine sample.ten
           sample.client doubles.unavailable).
  reflexivity.
Defined.

Lemma ListBusy_block_count_witness :
  length (run fake.remote (ListBusy sample.nine sample.ten sample.client)
            sample.state).1.1.1.1 <= 2.
Proof.
  apply (ListBusy_block_count fake.remote sample.state sample.state
           sample.nine sample.ten sample.client
           (gcal.mkFreeBusyResponse (fake.busy sample.state))
           (gcal.mkFreeBusyCalendar [sample.bad; sample.good])).
  - reflexivity.
  - reflexivity.
Defined.

Lemma UpdateEvent_rejected_witness :
  (run doubles.readOnly (UpdateEvent "evt1" sample.withGuest sample.client)
     sample.state).1
  = ((Some (ErrWrap "failed to update calendar event" doubles.forbidden),
      sample.client), sample.state).
Proof.
  destruct (UpdateEvent_rejected doubles.readOnly sample.state sample.state "evt1"
              sample.withGuest sample.client sample.stored eq_refl)
    as (payload & _ & Hrej).
  apply Hrej. reflexivity.
Defined.

Lemma UpdateEvent_payload_idempotent_witness :
  exists payload,
    (run fake.remote (UpdateEvent "evt1" sample.noAttendee sample.client)
       sample.state).2
    = [anyCall (gcal.EventsGet (service sample.client) "primary" "evt1");
       anyCall (gcal.EventsUpdate (service sample.client) "primary" "evt1" payload)]
    ∧ (run fake.remote (UpdateEvent "evt1" sample.noAttendee sample.client)
         (run fake.remote (UpdateEvent "evt1" sample.noAttendee sample.client)
            sample.state).1.2).2
      = [anyCall (gcal.EventsGet (service sample.client) "primary" "evt1");
         anyCall (gcal.EventsUpdate (service sample.client) "primary" "evt1" payload)].
Proof.
  destruct (UpdateEvent_payload_idempotent fake.remote sample.state sample.state
              "evt1" sample.noAttendee sample.client sample.stored eq_refl)
    as (payload & Hfirst & Hagain).
  exists payload. split; [exact Hfirst|].
  apply (Hagain fake.remote _
           (run fake.remote (UpdateEvent "evt1" sample.noAttendee sample.client)
              sample.state).1.2).
  apply (f_equal (fun calls => spec.sentEvent <$> calls !! 1%nat)) in Hfirst.
  vm_compute in Hfirst. injection Hfirst as <-.
  vm_compute. reflexivity.
Defined.

(** Against a service that is down each method makes its first call and
    reports the failure. *)
Example methods_against_outage :
  (run doubles.down (CreateEvent sample.withGuest sample.client) tt).1.1.1
  = ("", Some (ErrWrap "failed to create calendar event" doubles.unavailable))
  ∧ (run doubles.down (UpdateEvent "evt1" sample.withGuest sample.client) tt).1.1.1
    = Some (ErrWrap "failed to get existing event" doubles.unavailable)
  ∧ (run doubles.down (DeleteEvent "evt1" sample.client) tt).1.1.1
    = Some (ErrWrap "failed to delete calendar event" doubles.unavailable).
Proof. repeat split. Qed.

End google_more.

(* ===================================================================== *)
(** ** NewClient: properties *)
(* ===================================================================== *)

Module client_facts.
Import config google_client.

Section NewClient.
Context `{googleapis.Auth}.

(** X18.  Without credentials no client is made: [NewClient] returns the "no
    credentials" error, wrapped, before any library is asked. *)
Theorem NewClient_without_credentials (cfg : Config) (w : OS) :
  GoogleCredsJSON cfg = "" ->
  NewClient cfg w
  = (None, Some (ErrWrap "failed to get Google credentials" spec.noCredentials)).
Proof.
  intros Hempty. unfold NewClient.
  rewrite (config_facts.GetGoogleCreds_empty cfg w Hempty). reflexivity.
Qed.

(** The ways [NewClient] ends. *)
Lemma NewClient_shape (cfg : Config) (w : OS) :
  (exists service,
     NewClient cfg w = (Some (google.mkClient service (GCalCalendarID cfg)), None))
  ∨ (exists cause,
       NewClient cfg w
       = (None, Some (ErrWrap "failed to get Google credentials" cause))
       ∧ (GetGoogleCreds cfg w).2 = Some cause)
  ∨ (exists cause,
       NewClient cfg w = (None, Some (ErrWrap "failed to create JWT config" cause)))
  ∨ (exists cause,
       NewClient cfg w
       = (None, Some (ErrWrap "failed to create calendar service" cause))).
Proof.
  unfold NewClient.
  destruct (GetGoogleCreds cfg w) as [creds [err|]]; [right; left; eauto|].
  destruct (googleapis.JWTConfigFromJSON creds [googleapis.CalendarScope])
    as [jwtConfig|err]; [|right; right; left; eauto].
  destruct (googleapis.NewService (googleapis.JWTConfig_Client jwtConfig))
    as [service|err]; [left; eauto | right; right; right; eauto].
Qed.

(** X19.  [NewClient] returns a client or an error, never both and never
    neither.  The client is bound to the calendar identifier of the
    configuration as it stands; the error is one of three wrappers. *)
Theorem NewClient_client_or_error (cfg : Config) (w : OS) :
  (exists service,
     NewClient cfg w = (Some (google.mkClient service (GCalCalendarID cfg)), None))
  ∨ (exists msg cause,
       NewClient cfg w = (None, Some (ErrWrap msg cause))
       ∧ (msg = "failed to get Google credentials"
          ∨ msg = "failed to create JWT config"
          ∨ msg = "failed to create calendar service")).
Proof.
  destruct (NewClient_shape cfg w)
    as [[service Hs]|[(cause & Hc & _)|[[cause Hc]|[cause Hc]]]];
    [left; eauto | right | right | right];
    do 2 eexists; (split; [exact Hc | tauto]).
Qed.

(** X20.  The calendar identifier is not checked when the client is made: with
    another identifier in the configuration [NewClient] fails as before, or
    succeeds as before with the same session bound to the other
    identifier. *)
Theorem NewClient_does_not_check_calendar (w : OS)
    (env port tz id id' creds url key redis : string) :
  let cfg := mkConfig env port tz id creds url key redis in
  let cfg' := mkConfig env port tz id' creds url key redis in
  match NewClient cfg w with
  | (Some client, err) =>
      NewClient cfg' w = (Some (google.mkClient (google.service client) id'), err)
  | (None, err) => NewClient cfg' w = (None, err)
  end.
Proof.
  cbv zeta. unfold NewClient, GetGoogleCreds.
  cbn [GoogleCredsJSON GCalCalendarID].
  destruct (Nat.ltb 0 (String.length creds)); [|reflexivity].
  destruct (base64.DecodeString creds) as [decoded [e|]].
  - destruct (os.Stat w creds).
    + destruct (googleapis.JWTConfigFromJSON (list_byte_of_string creds)
                  [googleapis.CalendarScope]) as [jwtConfig|err]; [|reflexivity].
      destruct (googleapis.NewService (googleapis.JWTConfig_Client jwtConfig));
        reflexivity.
    + destruct (os.ReadFile w creds) as [content [err|]]; [reflexivity|].
      destruct (googleapis.JWTConfigFromJSON content [googleapis.CalendarScope])
        as [jwtConfig|err]; [|reflexivity].
      destruct (googleapis.NewService (googleapis.JWTConfig_Client jwtConfig));
        reflexivity.
  - destruct (googleapis.JWTConfigFromJSON decoded [googleapis.CalendarScope])
      as [jwtConfig|err]; [|reflexivity].
    destruct (googleapis.NewService (googleapis.JWTConfig_Client jwtConfig));
      reflexivity.
Qed.

End NewClient.

Import fixtures.

Lemma NewClient_without_credentials_witness :
  NewClient (sample.withCreds "") sample.machine
  = (None, Some (ErrWrap "failed to get Google credentials" spec.noCredentials)).
Proof.
  apply (NewClient_without_credentials (sample.withCreds "") sample.machine).
  reflexivity.
Defined.

(** With the stand-in libraries: a document inline, a file that holds
    one, and text that is no document. *)
Example NewClient_runs :
  NewClient fixtures.readyConfig sample.machine = (Some fixtures.readyClient, None)
  ∧ NewClient (sample.withCreds "creds.json") sample.machine
    = (Some fixtures.readyClient, None)
  ∧ NewClient (sample.withCreds "not a document") sample.machine
    = (None,
       Some (ErrWrap "failed to create JWT config"
               (ErrParse "invalid character looking for beginning of value")))
  ∧ NewClient (sample.withCreds ".") sample.machine
    = (None,
       Some (ErrWrap "failed to get Google credentials"
               (ErrPath "read" "." "is a directory"))).
Proof. repeat split; vm_compute; reflexivity. Qed.

End client_facts.

(* ===================================================================== *)
(** ** The commands: properties *)
(* ===================================================================== *)

Module api_facts.
Import config.

(** X21.  The health summary shows whether the credentials and the two store
    settings are there, and nothing of what they are: configurations that
    agree on the other fields and on which of the three are empty have the
    same summary. *)
Theorem healthz_hides_secrets (env port tz id redis : string)
    (creds url key creds' url' key' : string) :
  (creds = "" <-> creds' = "") ->
  (url = "" <-> url' = "") ->
  (key = "" <-> key' = "") ->
  api.healthz (mkConfig env port tz id creds url key redis)
  = api.healthz (mkConfig env port tz id creds' url' key' redis).
Proof.
  intros Hc Hu Hk. unfold api.healthz. cbn [Env HttpPort Timezone GCalCalendarID
    GoogleCredsJSON SupabaseURL SupabaseKey RedisURL].
  assert (Hlen : forall a b : string, (a = "" <-> b = "") ->
            Nat.ltb 0 (String.length a) = Nat.ltb 0 (String.length b)).
  { intros [|x a] [|y b] [H1 H2]; try reflexivity.
    - discriminate (H1 eq_refl).
    - discriminate (H2 eq_refl). }
  rewrite (Hlen _ _ Hc), (Hlen _ _ Hu), (Hlen _ _ Hk). reflexivity.
Qed.

Lemma healthz_hides_secrets_witness :
  api.healthz (mkConfig "production" "8080" "UTC" "primary" "secret-one" ""
                 "key-one" "redis://localhost:6379")
  = api.healthz (mkConfig "production" "8080" "UTC" "primary" "secret-two" ""
                   "key-two" "redis://localhost:6379").
Proof.
  apply (healthz_hides_secrets "production" "8080" "UTC" "primary"
           "redis://localhost:6379" "secret-one" "" "key-one"
           "secret-two" "" "key-two");
    split; discriminate || reflexivity.
Defined.

Section main.
Context `{DotenvSyntax}.
Variable Listen : fiber.App -> string -> option error.

(** X22.  [main] starts to listen exactly when the configuration loads without
    error, on the port of the configuration after a colon; otherwise the
    one thing it writes is the fatal message, and it exits with code 1. *)
Theorem main_listens_iff_config_loads (w : OS) :
  let cfg := (Load w).1.1 in
  let out := (api.main Listen w).1.1 in
  match (Load w).1.2 with
  | Some err =>
      api.main Listen w
      = (([LogFatalf "Failed to load config: %v" [VErr err]], Exited 1), (Load w).2)
      ∧ forall addr, NetListen addr ∉ out
  | None =>
      forall addr, NetListen addr ∈ out <-> addr = ":" ++ HttpPort cfg
  end.
Proof.
  cbv zeta. unfold api.main.
  destruct (Load w) as [[cfg [err|]] w1]; cbn [fst snd].
  - split; [reflexivity|]. intros addr Hin.
    apply list_elem_of_singleton in Hin. discriminate.
  - intros addr.
    destruct (Listen _ (":" ++ HttpPort cfg)) as [err|]; cbn [fst snd];
      rewrite ?elem_of_app, !elem_of_cons, ?elem_of_nil;
      split;
      try (intros ->; tauto);
      intros Hin; decompose [or] Hin; try discriminate; try contradiction;
      match goal with Heq : NetListen _ = NetListen _ |- _ => injection Heq; auto end.
Qed.

End main.
End api_facts.

Module cli_facts.
Import config.

Lemma run_bind {A B : Type} (srv : Remote) (p : Prog A) (f : A -> Prog B)
    (s : RemoteState srv) :
  run srv (Prog_bind p f) s
  = let '(a, s1, calls1) := run srv p s in
    let '(b, s2, calls2) := run srv (f a) s1 in
    (b, s2, (calls1 ++ calls2)%list).
Proof.
  revert s. induction p as [a|R e k IH]; intros s; simpl.
  - destruct (run srv (f a) s) as [[b s2] calls2]. reflexivity.
  - destruct (answer srv R e s) as [r s1]. rewrite IH.
    destruct (run srv (k r) s1) as [[a s2] calls1].
    destruct (run srv (f a) s2) as [[b s3] calls2]. reflexivity.
Qed.

(** A non-empty credential field never gives the "no credentials"
    error. *)
Lemma GetGoogleCreds_nonempty_error (cfg : Config) (w : OS) :
  GoogleCredsJSON cfg ≠ "" -> (GetGoogleCreds cfg w).2 ≠ Some spec.noCredentials.
Proof.
  intros Hne. rewrite (config_facts.GetGoogleCreds_nonempty cfg w Hne).
  unfold os.Stat, os.ReadFile.
  destruct (base64.DecodeString (GoogleCredsJSON cfg)) as [d [e|]];
    [|discriminate].
  destruct (fs w !! GoogleCredsJSON cfg) as [[content| |partial op reason]|];
    discriminate.
Qed.

Section init.
Context `{DotenvSyntax} `{googleapis.Auth}.
Context `{api : time.API} `{!duration.Arith}.

(** With a calendar identifier and credentials in it, the configuration
    has loaded without error. *)
Lemma Load_complete_no_error (w : OS) :
  GCalCalendarID (Load w).1.1 ≠ "" ->
  GoogleCredsJSON (Load w).1.1 ≠ "" ->
  (Load w).1.2 = None.
Proof.
  intros Hid Hcreds. rewrite config_facts.Load_error. cbv zeta.
  destruct (decide (Env (Load w).1.1 = "production")); [|reflexivity].
  destruct (decide (GCalCalendarID (Load w).1.1 = "")); [contradiction|].
  destruct (decide (GoogleCredsJSON (Load w).1.1 = ""));
    [contradiction | reflexivity].
Qed.

(** X23.  A configuration that fails to load never gets a client: [init] logs
    the one warning about the configuration and leaves the client nil, so
    that every command then stops at its first check. *)
Theorem init_config_error_leaves_client_nil (w : OS) (err : error) :
  (Load w).1.2 = Some err ->
  cli.init w
  = (((Load w).1.1, None,
      [LogPrintf "Warning: Failed to load config: %v" [VErr err]]), (Load w).2).
Proof.
  intros Herr. pose proof (Load_complete_no_error w) as Hok.
  unfold cli.init. destruct (Load w) as [[cfg e] w1]. cbn [fst snd] in *.
  subst e.
  destruct (decide (GCalCalendarID cfg ≠ "" ∧ GoogleCredsJSON cfg ≠ ""))
    as [[Hid Hcreds]|_]; [|reflexivity].
  discriminate (Hok Hid Hcreds).
Qed.

(** X24.  When [init] leaves a client, the configuration loaded without error,
    nothing was logged, and the client is bound to the calendar identifier
    of the configuration, which is not empty. *)
Theorem init_client_is_bound (w : OS) (client : google.Client) :
  (cli.init w).1.1.2 = Some client ->
  (Load w).1.2 = None
  ∧ (cli.init w).1.2 = []
  ∧ google.calendarID client = GCalCalendarID (Load w).1.1
  ∧ google.calendarID client ≠ ""
  ∧ GoogleCredsJSON (Load w).1.1 ≠ "".
Proof.
  pose proof (Load_complete_no_error w) as Hok.
  unfold cli.init. destruct (Load w) as [[cfg e] w1]. cbn [fst snd] in *.
  destruct (decide (GCalCalendarID cfg ≠ "" ∧ GoogleCredsJSON cfg ≠ ""))
    as [[Hid Hcreds]|_]; [|discriminate].
  rewrite (Hok Hid Hcreds).
  destruct (client_facts.NewClient_shape cfg w1)
    as [[service ->]|[(cause & -> & _)|[[cause ->]|[cause ->]]]];
    cbn [fst snd]; try discriminate.
  intros [= <-]. repeat split; assumption.
Qed.

(** X25.  [init] never reports missing credentials for the client: it makes
    the client only when the credential field is not empty, so a failure at
    the credential step is a failure to read the file the field names. *)
Theorem init_never_warns_no_credentials (w : OS) (e : error) :
  LogPrintf "Warning: Failed to initialize Google Calendar client: %v" [VErr e]
    ∈ (cli.init w).1.2 ->
  e ≠ ErrWrap "failed to get Google credentials" spec.noCredentials.
Proof.
  unfold cli.init. destruct (Load w) as [[cfg err] w1].
  destruct (decide (GCalCalendarID cfg ≠ "" ∧ GoogleCredsJSON cfg ≠ ""))
    as [[Hid Hcreds]|_]; cbn [fst snd].
  - pose proof (GetGoogleCreds_nonempty_error cfg w1 Hcreds) as Hnot.
    destruct (client_facts.NewClient_shape cfg w1)
      as [[service ->]|[(cause & -> & Hcause)|[[cause ->]|[cause ->]]]];
      cbn [fst snd]; destruct err as [err|]; intros Hin;
      apply list_elem_of_In in Hin; cbn [In app] in Hin;
      repeat (destruct Hin as [Hin|Hin]); try contradiction;
      try discriminate Hin; injection Hin as <-;
      try (intros [=]; fail);
      intros [= ->]; apply Hnot; exact Hcause.
  - destruct err as [err|]; intros Hin;
      apply list_elem_of_In in Hin; cbn [In] in Hin;
      repeat (destruct Hin as [Hin|Hin]); try contradiction; discriminate Hin.
Qed.

End init.
Section run.
Context `{api : time.API} `{!duration.Arith}.

Lemma blockLines_length (timeBlocks : list calendar.TimeBlock) :
  length (cli.blockLines timeBlocks) = length timeBlocks.
Proof. unfold cli.blockLines. apply length_imap. Qed.

(** X26.  create-event stops before any remote call, with one line of output
    and exit code 1, when there is no client, when the summary, the start
    or the end is empty, or when the start or the end does not parse. *)
Theorem createEventRun_rejects (srv : Remote) (s : RemoteState srv)
    (client : option google.Client) (flags : gmap string string) :
  client = None
  ∨ cli.GetString flags "summary" = ""
  ∨ cli.GetString flags "start" = ""
  ∨ cli.GetString flags "end" = ""
  ∨ (exists e, time.Parse "2006-01-02T15:04:05" (cli.GetString flags "start") = Err e)
  ∨ (exists e, time.Parse "2006-01-02T15:04:05" (cli.GetString flags "end") = Err e) ->
  exists line,
    run srv (cli.createEventRun client flags) s = (([line], Exited 1), s, []).
Proof.
  intros Hbad. unfold cli.createEventRun.
  destruct client as [c|]; [|eexists; reflexivity].
  destruct (decide (cli.GetString flags "summary" = "")); [eexists; reflexivity|].
  destruct (decide (cli.GetString flags "start" = "" ∨ cli.GetString flags "end" = ""));
    [eexists; reflexivity|].
  destruct (time.Parse "2006-01-02T15:04:05" (cli.GetString flags "start"))
    as [start|e1] eqn:Es; [|eexists; reflexivity].
  destruct (time.Parse "2006-01-02T15:04:05" (cli.GetString flags "end"))
    as [end_|e2] eqn:Ee; [|eexists; reflexivity].
  exfalso.
  destruct Hbad as [?|[?|[?|[?|[[e He]|[e He]]]]]];
    try discriminate; try contradiction; tauto.
Qed.

(** X27.  With a client, a summary, and a start and an end that parse,
    create-event makes one call: the insert of an event built from the
    flags, in which the attendee-name flag has no part.  It prints the
    identifier the remote side reports, or the wrapped error with exit
    code 1. *)
Theorem createEventRun_creates (srv : Remote) (s : RemoteState srv)
    (c : google.Client) (flags : gmap string string) (start end_ : time.Time) :
  cli.GetString flags "summary" ≠ "" ->
  time.Parse "2006-01-02T15:04:05" (cli.GetString flags "start") = Ok start ->
  time.Parse "2006-01-02T15:04:05" (cli.GetString flags "end") = Ok end_ ->
  cli.GetString flags "start" ≠ "" ->
  cli.GetString flags "end" ≠ "" ->
  let payload :=
    gcal.mkEvent "" (cli.GetString flags "summary")
      (cli.GetString flags "description")
      (spec.wireTime start (cli.GetString flags "timezone"))
      (spec.wireTime end_ (cli.GetString flags "timezone"))
      (cli.GetString flags "location")
      (if decide (cli.GetString flags "attendee-email" = "") then []
       else [spec.emailOnly (cli.GetString flags "attendee-email")])
      "" "" "" "" "" [] 0 ∅ in
  let insert := gcal.EventsInsert (google.service c) (google.calendarID c) payload in
  run srv (cli.createEventRun (Some c) flags) s
  = (match (answer srv _ insert s).1 with
     | Ok createdEvent =>
         ([Printf ("Event created successfully with ID: %s" ++ LF)
             [VStr (gcal.Event_Id createdEvent)]], Returned)
     | Err err =>
         ([Printf ("Error creating event: %v" ++ LF)
             [VErr (ErrWrap "failed to create calendar event" err)]], Exited 1)
     end, (answer srv _ insert s).2, [anyCall insert]).
Proof.
  intros Hsum Es Ee Hs He. cbv zeta. unfold cli.createEventRun.
  destruct (decide (cli.GetString flags "summary" = "")); [contradiction|].
  destruct (decide (cli.GetString flags "start" = "" ∨ cli.GetString flags "end" = ""));
    [tauto|].
  rewrite Es, Ee, run_bind.
  match goal with
  | |- context [run srv (google.CreateEvent ?appt c) s] =>
      pose proof (google_more.run_CreateEvent srv s appt c) as Hrun
  end.
  cbv zeta in Hrun. unfold spec.appointmentAttendees in Hrun.
  cbn [calendar.Appointment_Summary calendar.Appointment_Description
       calendar.Appointment_Start calendar.Appointment_End
       calendar.Appointment_AttendeeEmail calendar.Appointment_Location
       calendar.Appointment_Timezone] in Hrun.
  rewrite Hrun. clear Hrun.
  match goal with
  | |- context [answer srv _ ?e s] => destruct (answer srv _ e s) as [[created|err] s1]
  end; reflexivity.
Qed.

(** X28.  list-busy stops before any remote call, with one line of output and
    exit code 1, when there is no client or when one of the two dates does
    not parse. *)
Theorem listBusyRun_rejects (srv : Remote) (s : RemoteState srv)
    (client : option google.Client) (flags : gmap string string) :
  client = None
  ∨ (exists e, time.Parse "2006-01-02" (cli.GetString flags "from") = Err e)
  ∨ (exists e, time.Parse "2006-01-02" (cli.GetString flags "to") = Err e) ->
  exists line,
    run srv (cli.listBusyRun client flags) s = (([line], Exited 1), s, []).
Proof.
  intros Hbad. unfold cli.listBusyRun.
  destruct client as [c|]; [|eexists; reflexivity].
  destruct (time.Parse "2006-01-02" (cli.GetString flags "from"))
    as [from|e1] eqn:Ef; [|eexists; reflexivity].
  destruct (time.Parse "2006-01-02" (cli.GetString flags "to"))
    as [to|e2] eqn:Et; [|eexists; reflexivity].
  exfalso. destruct Hbad as [?|[[e He]|[e He]]]; discriminate.
Qed.

(** X29.  With a client and two dates that parse, list-busy makes one call: the
    free/busy query of the window from the day after the from date to the
    day after the to date.  When the query succeeds it prints a heading and
    then either the one line that nothing was found or one numbered line
    per block; when it fails it prints the wrapped error and exits with
    code 1. *)
Theorem listBusyRun_queries_next_day_window (srv : Remote) (s : RemoteState srv)
    (c : google.Client) (flags : gmap string string) (from to : time.Time) :
  time.Parse "2006-01-02" (cli.GetString flags "from") = Ok from ->
  time.Parse "2006-01-02" (cli.GetString flags "to") = Ok to ->
  let query :=
    spec.aggregateQuery (duration.Add from (24 * duration.Hour))
      (duration.Add to (24 * duration.Hour)) c in
  (run srv (cli.listBusyRun (Some c) flags) s).2 = [anyCall query]
  ∧ (forall err s1,
       answer srv _ query s = (Err err, s1) ->
       (run srv (cli.listBusyRun (Some c) flags) s).1.1
       = ([Printf ("Error listing busy blocks: %v" ++ LF)
             [VErr (ErrWrap "failed to query free/busy" err)]], Exited 1))
  ∧ (forall result s1,
       answer srv _ query s = (Ok result, s1) ->
       exists lines,
         (run srv (cli.listBusyRun (Some c) flags) s).1.1
         = (Printf ("Busy time blocks from %s to %s:" ++ LF)
              [VStr (cli.GetString flags "from"); VStr (cli.GetString flags "to")]
            :: lines, Returned)
         ∧ match gcal.FreeBusyResponse_Calendars result !! google.calendarID c with
           | Some cal =>
               match spec.wellFormedBlocks (gcal.FreeBusyCalendar_Busy cal) with
               | [] => lines = [Println "No busy blocks found."]
               | blocks =>
                   lines = cli.blockLines blocks ∧ length lines = length blocks
               end
           | None => lines = [Println "No busy blocks found."]
           end).
Proof.
  intros Ef Et. cbv zeta. unfold cli.listBusyRun. rewrite Ef, Et, run_bind.
  destruct (answer srv _
              (spec.aggregateQuery (duration.Add from (24 * duration.Hour))
                 (duration.Add to (24 * duration.Hour)) c) s)
    as [[result|err] s1] eqn:Ha.
  - rewrite (google_facts.run_ListBusy_ok _ _ _ _ _ _ _ Ha).
    split; [reflexivity|]. split; [intros ? ? [=]|].
    intros result' s1' [= <- <-]. cbn [run fst snd].
    destruct (gcal.FreeBusyResponse_Calendars result !! google.calendarID c)
      as [cal|]; [|eexists; split; reflexivity].
    destruct (spec.wellFormedBlocks (gcal.FreeBusyCalendar_Busy cal))
      as [|block blocks] eqn:Hb; [eexists; split; reflexivity|].
    eexists. split; [reflexivity|]. split; [reflexivity|].
    apply blockLines_length.
  - rewrite (google_facts.run_ListBusy_err _ _ _ _ _ _ _ Ha).
    split; [reflexivity|]. split; [|intros ? ? [=]].
    intros err' s1' [= <- <-]. reflexivity.
Qed.

End run.

End cli_facts.

Module connection_test_facts.
Import config.

Section main.
Context `{DotenvSyntax} `{googleapis.Auth}.
Context `{api : time.API} `{!duration.Arith}.

(** X30.  Once the configuration has loaded and the client is made, the test
    program queries the two days around now; when that fails it exits with
    code 1 and nothing else is called.  Otherwise it inserts its test event,
    which has no attendee; when the insert fails it returns without a
    further call, and when the insert succeeds its last call deletes the
    event under the identifier the remote side gave it. *)
Theorem connection_test_deletes_what_it_created (now : time.Time) (w : OS)
    (srv : Remote) (s : RemoteState srv) (cfg : Config) (client : google.Client) :
  (Load w).1 = (cfg, None) ->
  google_client.NewClient cfg (Load w).2 = (Some client, None) ->
  let query :=
    spec.aggregateQuery (duration.Add now (-24 * duration.Hour))
      (duration.Add now (24 * duration.Hour)) client in
  let payload :=
    gcal.mkEvent "" "Test Appointment - Bot Connection"
      "This is a test event to verify the service account connection"
      (spec.wireTime (duration.Add now (1 * duration.Hour)) "UTC")
      (spec.wireTime (duration.Add now (2 * duration.Hour)) "UTC")
      "Test Location" [] "" "" "" "" "" [] 0 ∅ in
  let insert :=
    gcal.EventsInsert (google.service client) (google.calendarID client) payload in
  let r := run srv (connection_test.main now w).1 s in
  match answer srv _ query s with
  | (Err _, _) => r.2 = [anyCall query] ∧ r.1.1.2 = Exited 1
  | (Ok _, s1) =>
      match answer srv _ insert s1 with
      | (Err _, _) => r.2 = [anyCall query; anyCall insert] ∧ r.1.1.2 = Returned
      | (Ok createdEvent, _) =>
          r.2 = [anyCall query; anyCall insert;
                 anyCall (gcal.EventsDelete (google.service client)
                            (google.calendarID client)
                            (gcal.Event_Id createdEvent))]
          ∧ r.1.1.2 = Returned
      end
  end.
Proof.
  intros Hload Hclient. cbv zeta. unfold connection_test.main.
  destruct (Load w) as [[cfg' e] w1]. cbn [fst snd] in Hload, Hclient.
  injection Hload as -> ->. rewrite Hclient. cbn [fst].
  unfold connection_test.exercise. rewrite cli_facts.run_bind.
  destruct (answer srv _
              (spec.aggregateQuery (duration.Add now (-24 * duration.Hour))
                 (duration.Add now (24 * duration.Hour)) client) s)
    as [[result|err] s1] eqn:Ha.
  - rewrite (google_facts.run_ListBusy_ok _ _ _ _ _ _ _ Ha).
    rewrite cli_facts.run_bind.
    match goal with
    | |- context [run srv (google.CreateEvent ?appt client) s1] =>
        pose proof (google_more.run_CreateEvent srv s1 appt client) as Hrun
    end.
    cbv zeta in Hrun. unfold spec.appointmentAttendees in Hrun.
    cbn [calendar.Appointment_Summary calendar.Appointment_Description
         calendar.Appointment_Start calendar.Appointment_End
         calendar.Appointment_AttendeeEmail calendar.Appointment_Location
         calendar.Appointment_Timezone] in Hrun.
    change (decide ("" = "")) with (left (@eq_refl string "") : Decision ("" = ""))
      in Hrun.
    cbv iota in Hrun. rewrite Hrun. clear Hrun.
    match goal with
    | |- context [answer srv _ ?e s1] =>
        destruct (answer srv _ e s1) as [[createdEvent|err] s2]
    end; cbn [fst snd].
    + rewrite cli_facts.run_bind.
      pose proof (google_more.run_DeleteEvent srv s2 (gcal.Event_Id createdEvent) client)
        as Hdel.
      cbv zeta in Hdel. rewrite Hdel. clear Hdel.
      destruct (answer srv _
                  (gcal.EventsDelete (google.service client) (google.calendarID client)
                     (gcal.Event_Id createdEvent)) s2) as [[derr|] s3];
        split; reflexivity.
    + split; reflexivity.
  - rewrite (google_facts.run_ListBusy_err _ _ _ _ _ _ _ Ha).
    split; reflexivity.
Qed.

End main.
End connection_test_facts.

(* ===================================================================== *)
(** ** The commands on concrete machines *)
(* ===================================================================== *)

Module command_runs.
Import config envfile civil fixtures.

(** The server on a complete production machine, and on one without
    credentials. *)
Example api_main_runs :
  (api.main fixtures.portTaken fixtures.ready).1
  = ([LogPrintf "Starting server on port %s" [VStr ":8080"];
      NetListen ":8080";
      LogFatalf "Failed to start server: %v"
        [VErr (ErrNew "listen tcp :8080: bind: address already in use")]],
     Exited 1)
  ∧ (api.main fixtures.portTaken fixtures.noCreds).1
    = ([LogFatalf "Failed to load config: %v"
          [VErr (ErrNew "GOOGLE_CREDS_JSON is required in production")]],
       Exited 1).
Proof. split; vm_compute; reflexivity. Qed.

Lemma init_config_error_leaves_client_nil_witness :
  cli.init fixtures.noCreds
  = (((Load fixtures.noCreds).1.1, None,
      [LogPrintf "Warning: Failed to load config: %v"
         [VErr (ErrNew "GOOGLE_CREDS_JSON is required in production")]]),
     (Load fixtures.noCreds).2).
Proof.
  apply (cli_facts.init_config_error_leaves_client_nil fixtures.noCreds).
  vm_compute. reflexivity.
Defined.

Lemma init_client_is_bound_witness :
  (Load fixtures.ready).1.2 = None
  ∧ (cli.init fixtures.ready).1.2 = []
  ∧ google.calendarID fixtures.readyClient = GCalCalendarID (Load fixtures.ready).1.1
  ∧ google.calendarID fixtures.readyClient ≠ ""
  ∧ GoogleCredsJSON (Load fixtures.ready).1.1 ≠ "".
Proof.
  apply (cli_facts.init_client_is_bound fixtures.ready fixtures.readyClient).
  vm_compute. reflexivity.
Defined.

Lemma init_never_warns_no_credentials_witness :
  ErrWrap "failed to create JWT config"
    (ErrParse "invalid character looking for beginning of value")
  ≠ ErrWrap "failed to get Google credentials" spec.noCredentials.
Proof.
  apply (cli_facts.init_never_warns_no_credentials fixtures.badCreds).
  vm_compute. apply list_elem_of_singleton. reflexivity.
Defined.

Lemma createEventRun_rejects_witness :
  exists line,
    run fake.remote
      (cli.createEventRun (Some fixtures.readyClient)
         (<["summary" := ""]> fixtures.createFlags)) fixtures.empty
    = (([line], Exited 1), fixtures.empty, []).
Proof.
  apply (cli_facts.createEventRun_rejects fake.remote fixtures.empty
           (Some fixtures.readyClient) (<["summary" := ""]> fixtures.createFlags)).
  right. left. reflexivity.
Defined.

(** The event goes out with the email alone, and the identifier of the
    in-memory service comes back. *)
Lemma createEventRun_creates_witness :
  (run fake.remote (cli.createEventRun (Some fixtures.readyClient) fixtures.createFlags)
     fixtures.empty).1.1
  = ([Printf ("Event created successfully with ID: %s" ++ LF) [VStr "evt0"]],
     Returned)
  ∧ (spec.sentEvent
       <$> (run fake.remote
              (cli.createEventRun (Some fixtures.readyClient) fixtures.createFlags)
              fixtures.empty).2 !! 0%nat)
    = Some (Some (gcal.mkEvent "" "Dentist" ""
                    (spec.wireTime (rfc3339.mkInstant 2024 3 1 9 0 0 0) "UTC")
                    (spec.wireTime (rfc3339.mkInstant 2024 3 1 10 0 0 0) "UTC")
                    "" [spec.emailOnly "ana@example.com"] "" "" "" "" "" [] 0 ∅)).
Proof.
  rewrite (cli_facts.createEventRun_creates (api := civil.api) fake.remote fixtures.empty
             fixtures.readyClient fixtures.createFlags
             (rfc3339.mkInstant 2024 3 1 9 0 0 0)
             (rfc3339.mkInstant 2024 3 1 10 0 0 0));
    [split; vm_compute; reflexivity
    | discriminate | reflexivity | reflexivity | discriminate | discriminate].
Defined.

Lemma listBusyRun_rejects_witness :
  exists line,
    run fake.remote (cli.listBusyRun None fixtures.listFlags) fixtures.empty
    = (([line], Exited 1), fixtures.empty, []).
Proof.
  apply (cli_facts.listBusyRun_rejects fake.remote fixtures.empty None
           fixtures.listFlags).
  left. reflexivity.
Defined.

(** Asked for 2024-03-01 to 2024-03-02, the command queries from the
    start of 2024-03-02 to the start of 2024-03-03. *)
Lemma listBusyRun_queries_next_day_window_witness :
  (run fake.remote (cli.listBusyRun (Some fixtures.readyClient) fixtures.listFlags)
     fixtures.empty).2
  = [anyCall (gcal.FreebusyQuery (google.service fixtures.readyClient)
       (gcal.mkFreeBusyRequest "2024-03-02T00:00:00Z" "2024-03-03T00:00:00Z"
          [gcal.mkFreeBusyRequestItem "primary"]))].
Proof.
  exact (proj1 (cli_facts.listBusyRun_queries_next_day_window (api := civil.api) fake.remote
                  fixtures.empty fixtures.readyClient fixtures.listFlags
                  (rfc3339.mkInstant 2024 3 1 0 0 0 0)
                  (rfc3339.mkInstant 2024 3 2 0 0 0 0) eq_refl eq_refl)).
Defined.

(** On a complete machine and an empty in-memory service the test program
    queries, inserts, and deletes the event it was given back. *)
Lemma connection_test_deletes_what_it_created_witness :
  spec.isEventsUpdate
    <$> (run fake.remote (connection_test.main fixtures.noon fixtures.ready).1
           fixtures.empty).2
  = [false; false; false]
  ∧ last (run fake.remote (connection_test.main fixtures.noon fixtures.ready).1
            fixtures.empty).2
    = Some (anyCall (gcal.EventsDelete (google.service fixtures.readyClient)
                       "primary" "evt0"))
  ∧ (run fake.remote (connection_test.main fixtures.noon fixtures.ready).1
       fixtures.empty).1.1.2 = Returned.
Proof.
  pose proof (connection_test_facts.connection_test_deletes_what_it_created
                fixtures.noon fixtures.ready fake.remote fixtures.empty
                fixtures.readyConfig fixtures.readyClient eq_refl eq_refl) as Hw.
  cbv zeta in Hw. destruct Hw as [Hcalls Hstatus].
  rewrite Hcalls, Hstatus. repeat split.
Defined.

End command_runs.


(* ===================================================================== *)
(** ** Load: validation against the environment it starts in *)
(* ===================================================================== *)

Module load_facts.
Import config.

Section Load.
Context `{DotenvSyntax}.

(** The configuration is resolved in the effective state, which is
    given by the state [Load] starts in. *)
Lemma Load_from_start (w : OS) :
  (Load w).1.1 = spec.resolved (overlay.effective w).
Proof.
  rewrite config_facts.Load_config. unfold spec.overlaid, overlay.effective.
  rewrite config_more.Load_closed. reflexivity.
Qed.

(** The error, by the three settings that decide it. *)
Lemma Load_error_from_start (w : OS) :
  (Load w).1.2 =
    if decide (getEnv (overlay.effective w) "APP_ENV" "development" = "production")
    then
      if decide (getEnv (overlay.effective w) "GCAL_CALENDAR_ID" "" = "") then
        Some (ErrNew "GCAL_CALENDAR_ID is required in production")
      else if decide (getEnv (overlay.effective w) "GOOGLE_CREDS_JSON" "" = "")
      then Some (ErrNew "GOOGLE_CREDS_JSON is required in production")
      else None
    else None.
Proof.
  rewrite config_facts.Load_error. cbv zeta. rewrite Load_from_start.
  reflexivity.
Qed.

(** C2. The environment name, the calendar identifier and the raw
    credential field that [Load] returns are what APP_ENV (default
    "development"), GCAL_CALENDAR_ID and GOOGLE_CREDS_JSON read in the
    state [Load] starts in, the process environment first and the chosen
    overlay file under it.  [Load] fails exactly when that environment name
    is "production" and the calendar identifier or the credential field is
    empty, with the error that names the first of the two that is missing;
    with any other environment name it does not fail, whatever is empty. *)
Theorem Load_fails_iff_production_incomplete (w : OS) :
  let start := mkOS (fs w) (environ w ∪ overlay.offered w (overlay.chosen w)) in
  let appEnv := getEnv start "APP_ENV" "development" in
  let calendarID := getEnv start "GCAL_CALENDAR_ID" "" in
  let creds := getEnv start "GOOGLE_CREDS_JSON" "" in
  let cfg := (Load w).1.1 in
  let err := (Load w).1.2 in
  (Env cfg = appEnv ∧ GCalCalendarID cfg = calendarID ∧ GoogleCredsJSON cfg = creds)
  ∧ (err ≠ None <-> appEnv = "production" ∧ (calendarID = "" ∨ creds = ""))
  ∧ (appEnv ≠ "production" -> err = None)
  ∧ (appEnv = "production" -> calendarID = "" ->
     err = Some (ErrNew "GCAL_CALENDAR_ID is required in production"))
  ∧ (appEnv = "production" -> calendarID ≠ "" -> creds = "" ->
     err = Some (ErrNew "GOOGLE_CREDS_JSON is required in production"))
  ∧ (err ≠ None <->
       Env cfg = "production" ∧ (GCalCalendarID cfg = "" ∨ GoogleCredsJSON cfg = ""))
  ∧ (Env cfg ≠ "production" -> err = None).
Proof.
  cbv zeta. rewrite Load_error_from_start, Load_from_start.
  change (mkOS (fs w) (environ w ∪ overlay.offered w (overlay.chosen w)))
    with (overlay.effective w).
  cbn [spec.resolved Env GCalCalendarID GoogleCredsJSON].
  generalize (getEnv (overlay.effective w) "APP_ENV" "development").
  generalize (getEnv (overlay.effective w) "GCAL_CALENDAR_ID" "").
  generalize (getEnv (overlay.effective w) "GOOGLE_CREDS_JSON" "").
  intros creds calendarID appEnv.
  split; [repeat split|].
  destruct (decide (appEnv = "production")) as [Hp|Hp];
    [destruct (decide (calendarID = "")) as [Hc|Hc];
     [|destruct (decide (creds = "")) as [Hg|Hg]]|];
    repeat split; intros; try tauto; try congruence; try discriminate;
    try (intuition congruence).
Qed.

(** C10. When production validation fails, the configuration that comes
    back with the error is the resolved one: each of its eight fields is
    what its variable reads in the state [Load] starts in, the process
    environment first and the chosen overlay file under it, or the default
    of the field.  Its environment name is "production", its defaulted
    fields are not empty, and it is not the zero value. *)
Theorem Load_keeps_config_on_error (w : OS) :
  (Load w).1.2 ≠ None ->
  let start := mkOS (fs w) (environ w ∪ overlay.offered w (overlay.chosen w)) in
  (Load w).1.1
  = {| Env := getEnv start "APP_ENV" "development";
       HttpPort := getEnv start "HTTP_PORT" "8080";
       Timezone := getEnv start "TZ" "UTC";
       GCalCalendarID := getEnv start "GCAL_CALENDAR_ID" "";
       GoogleCredsJSON := getEnv start "GOOGLE_CREDS_JSON" "";
       SupabaseURL := getEnv start "SUPABASE_URL" "";
       SupabaseKey := getEnv start "SUPABASE_KEY" "";
       RedisURL := getEnv start "REDIS_URL" "redis://localhost:6379" |}
  ∧ getEnv start "APP_ENV" "development" = "production"
  ∧ (getEnv start "GCAL_CALENDAR_ID" "" = ""
     ∨ getEnv start "GOOGLE_CREDS_JSON" "" = "")
  ∧ Env (Load w).1.1 = "production"
  ∧ HttpPort (Load w).1.1 ≠ ""
  ∧ Timezone (Load w).1.1 ≠ ""
  ∧ RedisURL (Load w).1.1 ≠ ""
  ∧ (Load w).1.1 ≠ spec.zeroConfig.
Proof.
  intros Herr. cbv zeta.
  change (mkOS (fs w) (environ w ∪ overlay.offered w (overlay.chosen w)))
    with (overlay.effective w).
  rewrite Load_error_from_start in Herr. rewrite Load_from_start.
  unfold spec.resolved. cbn [Env HttpPort Timezone RedisURL].
  assert (Hprod : getEnv (overlay.effective w) "APP_ENV" "development" = "production").
  { destruct (decide (getEnv (overlay.effective w) "APP_ENV" "development"
                      = "production")); [assumption | congruence]. }
  assert (Hmissing : getEnv (overlay.effective w) "GCAL_CALENDAR_ID" "" = ""
                     ∨ getEnv (overlay.effective w) "GOOGLE_CREDS_JSON" "" = "").
  { destruct (decide (getEnv (overlay.effective w) "APP_ENV" "development"
                      = "production")); [|congruence].
    destruct (decide (getEnv (overlay.effective w) "GCAL_CALENDAR_ID" "" = ""));
      [left; assumption|].
    destruct (decide (getEnv (overlay.effective w) "GOOGLE_CREDS_JSON" "" = ""));
      [right; assumption | congruence]. }
  split; [reflexivity|]. split; [exact Hprod|]. split; [exact Hmissing|].
  split; [exact Hprod|].
  repeat split; try (apply config_facts.getEnv_default_nonempty; discriminate).
  intros Hz. apply (f_equal Env) in Hz. cbn [Env spec.zeroConfig] in Hz.
  rewrite Hprod in Hz. discriminate.
Qed.

End Load.

Import envfile.

(** Two machines that fail: production exported with nothing else set,
    and production asked for by config.env alone, with its port. *)
Lemma Load_keeps_config_on_error_witness :
  ((Load sample.bareProduction).1
   = (mkConfig "production" "8080" "UTC" "" "" "" "" "redis://localhost:6379",
      Some (ErrNew "GCAL_CALENDAR_ID is required in production"))
   ∧ (Load machines.productionByFile).1
     = (mkConfig "production" "7000" "UTC" "" "" "" "" "redis://localhost:6379",
        Some (ErrNew "GCAL_CALENDAR_ID is required in production")))
  ∧ (Load machines.productionByFile).1.1
    = spec.resolved (overlay.effective machines.productionByFile)
  ∧ (Load machines.productionByFile).1.1 ≠ spec.zeroConfig.
Proof.
  split; [split; vm_compute; reflexivity|].
  pose proof (Load_keeps_config_on_error machines.productionByFile) as Hw.
  cbv zeta in Hw.
  destruct Hw as (Hcfg & _ & _ & _ & _ & _ & _ & Hzero);
    [vm_compute; discriminate|].
  split; [exact Hcfg | exact Hzero].
Defined.

(** Validation on four machines: staging with nothing set does not fail;
    production fails without a calendar, fails without credentials, and
    passes with both. *)
Example Load_validation_runs :
  (Load machines.noFiles).1.2 = None
  ∧ (Load machines.productionByFile).1.2
    = Some (ErrNew "GCAL_CALENDAR_ID is required in production")
  ∧ (Load fixtures.noCreds).1.2
    = Some (ErrNew "GOOGLE_CREDS_JSON is required in production")
  ∧ (Load fixtures.ready).1.2 = None.
Proof. repeat split; vm_compute; reflexivity. Qed.

End load_facts.
